(** * Unjob-Socket: presence registry, room relay and signaling broker

    A shallow embedding of the socket.io server of the repository (the
    file with [CONFIG], [broadcastOnlineUsers], [handleUserConnection],
    [handleUserDisconnection] and the [io.on("connection")] handlers),
    with the theorems that settle the claims of its specification.

    Layout: JavaScript values, the insertion-ordered [Map], the server
    state and the transport, the handlers, reachable states and their
    invariant, and then the claims. *)

From Stdlib Require Import List String ZArith Bool Lia.
Import ListNotations.
Local Open Scope string_scope.
Local Open Scope list_scope.

Set Implicit Arguments.
Set Warnings "-register-all".

(** ** JavaScript values

    What a client can put into an event payload or into the handshake
    query.  Numbers are integers here: no handler does arithmetic, only
    truthiness and identity of a value are observed. *)

Inductive JsVal : Type :=
| JUndefined
| JNull
| JBool (b : bool)
| JNum (n : Z)
| JStr (s : string)
| JArr (items : list JsVal)
| JObj (fields : list (string * JsVal)).

(** [!v] is [negb (truthy v)]. *)
Definition truthy (v : JsVal) : bool :=
  match v with
  | JUndefined | JNull => false
  | JBool b => b
  | JNum n => negb (n =? 0)%Z
  | JStr s => negb (s =? "")
  | JArr _ | JObj _ => true
  end.

(** Result of running a handler body: it returns; or a [TypeError]
    escapes it before it has done anything; or a [TypeError] escapes it
    after it has had the effects [a]. *)
Inductive Outcome (A : Type) : Type :=
| Returned (a : A)
| Threw (err : string)
| ThrewAfter (a : A) (err : string).
Arguments Threw {A} err.

Definition bind {A B} (o : Outcome A) (k : A -> Outcome B) : Outcome B :=
  match o with
  | Returned a => k a
  | Threw e => Threw e
  | ThrewAfter _ e => Threw e
  end.

Notation "'let*' x ':=' o 'in' k" := (bind o (fun x => k))
  (at level 10, x pattern, o at level 100, k at level 200).

Fixpoint assoc (k : string) (fs : list (string * JsVal)) : option JsVal :=
  match fs with
  | [] => None
  | (k', v) :: fs' => if k =? k' then Some v else assoc k fs'
  end.

(** The object pattern [const { a, b } = data]: it throws on [undefined]
    and [null]; on any other value each name reads a property, which is
    [undefined] when the value has none of that name.  Only the names the
    handlers read are looked up ([conversationId], [userId], [messageIds],
    [to], [from], [signal], [candidate]); none of them is a built-in
    property of a string, number, boolean or array. *)
Definition destructure (data : JsVal) : Outcome (string -> JsVal) :=
  match data with
  | JUndefined | JNull => Threw "TypeError"
  | JObj fs => Returned (fun k => match assoc k fs with
                                  | Some v => v
                                  | None => JUndefined
                                  end)
  | _ => Returned (fun _ => JUndefined)
  end.

(** A template literal converts each value it interpolates to a string.
    The conversion of a value decoded from a packet throws a [TypeError]
    for an object that has a property of its own named [toString] (the
    property is not callable, and [Object.prototype.valueOf] gives back
    the object), and for an array that holds a value whose conversion
    throws ([Array.prototype.join] converts every element that is not
    [undefined] or [null]).  Any other value has a string. *)
Fixpoint tostring_throws (v : JsVal) : bool :=
  match v with
  | JObj fs => match assoc "toString" fs with
               | Some _ => true
               | None => false
               end
  | JArr items => existsb tostring_throws items
  | _ => false
  end.

(** A body that ends with a [log] call whose message interpolates the
    client-supplied values [vs], after the effects [a]: the message is
    built before [log] is entered. *)
Definition logged {A} (vs : list JsVal) (a : A) : Outcome A :=
  if existsb tostring_throws vs then ThrewAfter a "TypeError" else Returned a.

(** ** The JavaScript [Map], in insertion order

    [onlineUsers] and [userSockets] are [Map]s keyed by strings.  A [Map]
    iterates in insertion order, [set] on a present key keeps the key's
    place, [delete] removes the key. *)

Module JsMap.
Section WithValue.
Variable V : Type.

Definition t := list (string * V).

Definition empty : t := [].

Fixpoint get (k : string) (m : t) : option V :=
  match m with
  | [] => None
  | (k', v) :: m' => if k =? k' then Some v else get k m'
  end.

Fixpoint set (k : string) (v : V) (m : t) : t :=
  match m with
  | [] => [(k, v)]
  | (k', v') :: m' =>
      if k =? k' then (k, v) :: m' else (k', v') :: set k v m'
  end.

Definition delete (k : string) (m : t) : t :=
  filter (fun e => negb (k =? fst e)) m.

Definition keys (m : t) : list string := map fst m.

Definition size (m : t) : nat := List.length m.
End WithValue.
Arguments empty {V}.
End JsMap.

(** ** Server state *)

(** A value of [onlineUsers]: [{ socketId: socket.id, status: "online" }]. *)
Record Presence : Type := mkPresence {
  socketId : string;
  status : string
}.

(** A connected socket: its [id] and its [rooms], the [Set] that
    [socket.rooms] iterates, own room first. *)
Record Socket : Type := mkSocket {
  id : string;
  rooms : list JsVal
}.

Record Server : Type := mkServer {
  onlineUsers : JsMap.t Presence;
  userSockets : JsMap.t string;
  sockets : list Socket
}.

Definition initial : Server := mkServer JsMap.empty JsMap.empty [].

Definition connected (s : Server) (c : string) : Prop :=
  In c (map id (sockets s)).

Definition find_socket (s : Server) (c : string) : option Socket :=
  find (fun k => id k =? c) (sockets s).

(** [socket.rooms] of the socket with id [c]. *)
Definition rooms_of (s : Server) (c : string) : list JsVal :=
  match find_socket s c with
  | Some k => rooms k
  | None => []
  end.

(** [onlineUsers.get(key)] for an arbitrary value [key]: all keys of the
    map are strings, so only a string can hit. *)
Definition onlineUsers_get (s : Server) (key : JsVal) : option Presence :=
  match key with
  | JStr u => JsMap.get u (onlineUsers s)
  | _ => None
  end.

(** [userSockets.get(socket.id)] as the JavaScript value it evaluates to. *)
Definition userSockets_get (s : Server) (c : string) : JsVal :=
  match JsMap.get c (userSockets s) with
  | Some u => JStr u
  | None => JUndefined
  end.

(** The registry operations of the specification, as the code has them. *)
Definition lookupChannel (s : Server) (u : string) : option string :=
  option_map socketId (JsMap.get u (onlineUsers s)).

Definition isOnline (s : Server) (u : string) : bool :=
  match JsMap.get u (onlineUsers s) with Some _ => true | None => false end.

(** [Array.from(onlineUsers.keys())]. *)
Definition snapshotUserIds (s : Server) : list string :=
  JsMap.keys (onlineUsers s).

(** ** Transport

    The transport is socket.io, a library outside the repository
    (version 3 or later, where [socket.rooms] is a [Set] that holds the
    socket's own id as its first room, as [handleUserDisconnection]
    relies on).  It is modelled by its documented contract, the one that
    section 4.1 of the specification restates as ChannelAbstraction: an
    emission to a room reaches the connected sockets joined to it, a
    socket's own broadcasts leave the socket itself out.  What is kept of
    the library is which connected sockets an emission reaches. *)

(** The five ways the code addresses an emission. *)
Inductive Target : Type :=
| ToSocket (c : string)                 (* socket.emit(...)            *)
| BroadcastFrom (c : string)            (* socket.broadcast.emit(...)  *)
| RoomFrom (c : string) (room : JsVal)  (* socket.to(room).emit(...)   *)
| IoTo (room : JsVal)                   (* io.to(room).emit(...)       *)
| IoAll.                                (* io.emit(...)                *)

Record Emission : Type := mkEmission {
  target : Target;
  event : string;
  payload : JsVal
}.

(** Rooms are keys of a [Map]: primitives are the same key when they are
    the same value, an array or object decoded from a packet is a key
    of its own. *)
Definition same_room (a b : JsVal) : bool :=
  match a, b with
  | JUndefined, JUndefined => true
  | JNull, JNull => true
  | JBool x, JBool y => Bool.eqb x y
  | JNum x, JNum y => (x =? y)%Z
  | JStr x, JStr y => x =? y
  | _, _ => false
  end.

(** [join] and [to] take one room or an array of rooms. *)
Definition room_list (v : JsVal) : list JsVal :=
  match v with
  | JArr l => l
  | _ => [v]
  end.

Definition in_room (r : JsVal) (k : Socket) : bool :=
  existsb (same_room r) (rooms k).

(** A socket is addressed by a set of rooms when it is in one of them;
    an empty set of rooms addresses every socket. *)
Definition addressed (rs : list JsVal) (k : Socket) : bool :=
  match rs with
  | [] => true
  | _ => existsb (fun r => in_room r k) rs
  end.

Definition reaches (t : Target) (k : Socket) : bool :=
  match t with
  | ToSocket c => id k =? c
  | BroadcastFrom c => negb (id k =? c)
  | RoomFrom c room => addressed (room_list room) k && negb (id k =? c)
  | IoTo room => addressed (room_list room) k
  | IoAll => true
  end.

(** The ids of the connected sockets an emission is delivered to. *)
Definition recipients (socks : list Socket) (t : Target) : list string :=
  map id (filter (reaches t) socks).

(** Whether socket [c] is among the recipients. *)
Definition received (socks : list Socket) (t : Target) (c : string) : bool :=
  existsb (String.eqb c) (recipients socks t).

(** What socket [c] receives from the emissions [out], in order. *)
Definition inbox (socks : list Socket) (out : list Emission) (c : string)
  : list (string * JsVal) :=
  map (fun e => (event e, payload e))
      (filter (fun e => received socks (target e) c) out).

(** The library adds a socket, joined to the room of its own id, before
    the [connection] listener runs, and drops it after the
    [disconnecting] listeners have run. *)
Definition open_socket (s : Server) (c : string) : Server :=
  mkServer (onlineUsers s) (userSockets s) (sockets s ++ [mkSocket c [JStr c]]).

Definition close_socket (s : Server) (c : string) : Server :=
  mkServer (onlineUsers s) (userSockets s)
           (filter (fun k => negb (id k =? c)) (sockets s)).

(** [Set.prototype.add] for each room joined. *)
Definition add_rooms (new : list JsVal) (rs : list JsVal) : list JsVal :=
  fold_left (fun acc r => if existsb (same_room r) acc then acc else acc ++ [r])
            new rs.

(** [socket.join(room)]. *)
Definition socket_join (s : Server) (c : string) (room : JsVal) : Server :=
  mkServer (onlineUsers s) (userSockets s)
           (map (fun k => if id k =? c
                          then mkSocket (id k) (add_rooms (room_list room) (rooms k))
                          else k)
                (sockets s)).

(** ** The handlers

    A call to [log] writes to the console and touches neither the maps
    nor the sockets.  What is kept of it is the template literal of its
    message where that interpolates a value the client supplied
    ([logged]); the calls that interpolate socket ids, registered userIds
    and the handshake's userId only (strings, or an array of strings)
    cannot throw and are left out. *)

Definition Reply : Type := (Server * list Emission)%type.

(** Lines 92-95. [(socket || io).emit("onlineUsersList", onlineUserIds)]:
    to the given socket, or to every socket when none is given. *)
Definition broadcastOnlineUsers (s : Server) (socket : option string) : Emission :=
  let onlineUserIds := JArr (map JStr (JsMap.keys (onlineUsers s))) in
  mkEmission (match socket with Some c => ToSocket c | None => IoAll end)
             "onlineUsersList" onlineUserIds.

(** Lines 97-108. *)
Definition handleUserConnection (s : Server) (c : string) (userId : string) : Reply :=
  let s1 := mkServer (JsMap.set userId (mkPresence c "online") (onlineUsers s))
                     (userSockets s) (sockets s) in
  let s2 := mkServer (onlineUsers s1) (JsMap.set c userId (userSockets s1))
                     (sockets s1) in
  (s2, [mkEmission (BroadcastFrom c) "userOnline" (JStr userId);
        broadcastOnlineUsers s2 None]).

(** [room !== socket.id]. *)
Definition not_own_room (c : string) (room : JsVal) : bool :=
  match room with
  | JStr r => negb (r =? c)
  | _ => true
  end.

(** The loop of lines 111-117. *)
Definition left_room_notices (s : Server) (c : string) : list Emission :=
  map (fun room =>
         mkEmission (RoomFrom c room) "user-left-room"
                    (JObj [("userId", userSockets_get s c); ("room", room)]))
      (filter (not_own_room c) (rooms_of s c)).

(** Lines 110-131. *)
Definition handleUserDisconnection (s : Server) (c : string) : Reply :=
  let notices := left_room_notices s c in
  let disconnectedUserId := userSockets_get s c in
  match disconnectedUserId with
  | JStr u =>
      if truthy disconnectedUserId then
        let s1 := mkServer (JsMap.delete u (onlineUsers s))
                           (userSockets s) (sockets s) in
        let s2 := mkServer (onlineUsers s1) (JsMap.delete c (userSockets s1))
                           (sockets s1) in
        (s2, notices ++ [mkEmission (BroadcastFrom c) "userOffline" (JStr u);
                         broadcastOnlineUsers s2 None])
      else (s, notices)
  | _ => (s, notices)
  end.

(** Lines 136-145, the head of the [connection] listener:
    [userId && typeof userId === "string"]. *)
Definition on_connection (s : Server) (c : string) (userId : JsVal) : Reply :=
  match userId with
  | JStr u => if truthy userId then handleUserConnection s c u else (s, [])
  | _ => (s, [])
  end.

(** Lines 147-155. *)
Definition on_joinConversation (s : Server) (c : string) (conversationId : JsVal)
  : Outcome Reply :=
  if negb (truthy conversationId) then Returned (s, [])
  else logged [conversationId] (socket_join s c conversationId, []).

(** Lines 157-164. *)
Definition on_sendMessage (s : Server) (c : string) (message : JsVal)
  : Outcome Reply :=
  let* f := destructure message in
  let conversationId := f "conversationId" in
  if negb (truthy conversationId) then
    Returned (s, [mkEmission (ToSocket c) "error"
                    (JObj [("message", JStr "Message must have a conversationId.")])])
  else
    Returned (s, [mkEmission (RoomFrom c conversationId) "newMessage" message]).

(** Lines 166-171. *)
Definition on_messageRead (s : Server) (c : string) (data : JsVal)
  : Outcome Reply :=
  let* f := destructure data in
  let conversationId := f "conversationId" in
  let userId := f "userId" in
  let messageIds := f "messageIds" in
  if negb (truthy conversationId) || negb (truthy userId) || negb (truthy messageIds)
  then Returned (s, [])
  else Returned (s, [mkEmission (RoomFrom c conversationId) "messageRead"
                       (JObj [("conversationId", conversationId);
                              ("userId", userId);
                              ("messageIds", messageIds)])]).

(** Lines 173-176 and 178-181: [startTyping] and [stopTyping] differ in
    the event name only. *)
Definition on_typing (name : string) (s : Server) (c : string) (data : JsVal)
  : Outcome Reply :=
  let* f := destructure data in
  let conversationId := f "conversationId" in
  let userId := f "userId" in
  if negb (truthy conversationId) || negb (truthy userId)
  then Returned (s, [])
  else Returned (s, [mkEmission (RoomFrom c conversationId) name
                       (JObj [("conversationId", conversationId);
                              ("userId", userId)])]).

(** Lines 183-185. *)
Definition on_requestOnlineUsers (s : Server) (c : string) : Outcome Reply :=
  Returned (s, [broadcastOnlineUsers s (Some c)]).

(** Lines 187-196. *)
Definition on_callUser (s : Server) (c : string) (data : JsVal)
  : Outcome Reply :=
  let* f := destructure data in
  let to := f "to" in
  let from := f "from" in
  let signal := f "signal" in
  match onlineUsers_get s to with
  | Some recipient =>
      logged [from; to]
             (s, [mkEmission (IoTo (JStr (socketId recipient))) "incoming-call"
                    (JObj [("from", from); ("signal", signal)])])
  | None => logged [to] (s, [])
  end.

(** Lines 198-205. *)
Definition on_answerMade (s : Server) (c : string) (data : JsVal)
  : Outcome Reply :=
  let* f := destructure data in
  let to := f "to" in
  let from := f "from" in
  let signal := f "signal" in
  match onlineUsers_get s to with
  | Some originalCaller =>
      logged [from; to]
             (s, [mkEmission (IoTo (JStr (socketId originalCaller))) "call-accepted"
                    (JObj [("from", from); ("signal", signal)])])
  | None => Returned (s, [])
  end.

(** Lines 207-216. *)
Definition on_iceCandidate (s : Server) (c : string) (data : JsVal)
  : Outcome Reply :=
  let* f := destructure data in
  let to := f "to" in
  let candidate := f "candidate" in
  match onlineUsers_get s to with
  | Some recipient =>
      Returned (s, [mkEmission (IoTo (JStr (socketId recipient))) "ice-candidate"
                      (JObj [("from", userSockets_get s c);
                             ("candidate", candidate)])])
  | None => Returned (s, [])
  end.

(** Lines 226-233. *)
Definition on_disconnecting (s : Server) (c : string) : Reply :=
  handleUserDisconnection s c.

(** The events a connected client can send, other than closing. *)
Inductive ClientEvent : Type :=
| JoinConversation (conversationId : JsVal)
| SendMessage (message : JsVal)
| MessageRead (data : JsVal)
| StartTyping (data : JsVal)
| StopTyping (data : JsVal)
| RequestOnlineUsers
| CallUser (data : JsVal)
| AnswerMade (data : JsVal)
| IceCandidate (data : JsVal).

Definition handle (s : Server) (c : string) (ev : ClientEvent) : Outcome Reply :=
  match ev with
  | JoinConversation v => on_joinConversation s c v
  | SendMessage v => on_sendMessage s c v
  | MessageRead v => on_messageRead s c v
  | StartTyping v => on_typing "startTyping" s c v
  | StopTyping v => on_typing "stopTyping" s c v
  | RequestOnlineUsers => on_requestOnlineUsers s c
  | CallUser v => on_callUser s c v
  | AnswerMade v => on_answerMade s c v
  | IceCandidate v => on_iceCandidate s c v
  end.

(** The state a handler leaves behind; one that throws at its first
    statement leaves the state it found, one that throws in its log line
    leaves the state its effects made. *)
Definition state_after (s : Server) (o : Outcome Reply) : Server :=
  match o with
  | Returned (s', _) => s'
  | Threw _ => s
  | ThrewAfter (s', _) _ => s'
  end.

Definition emitted (o : Outcome Reply) : list Emission :=
  match o with
  | Returned (_, out) => out
  | Threw _ => []
  | ThrewAfter (_, out) _ => out
  end.

Definition threw (o : Outcome Reply) : bool :=
  match o with
  | Returned _ => false
  | Threw _ => true
  | ThrewAfter _ _ => true
  end.

(** [data.name] where [data] can be destructured. *)
Definition get_property (data : JsVal) (name : string) : option JsVal :=
  match destructure data with
  | Returned f => Some (f name)
  | _ => None
  end.

(** ** Runs of the server

    One event at a time, to completion: a socket opens and the
    [connection] listener runs; a connected socket sends an event; a
    socket closes, the [disconnecting] listener runs and the library
    drops the socket. *)

Inductive Event : Type :=
| Connect (c : string) (userId : JsVal)
| Client (c : string) (ev : ClientEvent)
| Disconnect (c : string).

Definition step (s : Server) (e : Event) : Server :=
  match e with
  | Connect c userId => fst (on_connection (open_socket s c) c userId)
  | Client c ev => state_after s (handle s c ev)
  | Disconnect c => close_socket (fst (on_disconnecting s c)) c
  end.

Definition run (s : Server) (es : list Event) : Server := fold_left step es s.

(** Socket ids are fresh at connection, and only connected sockets send
    events or close. *)
Inductive reachable : Server -> Prop :=
| reach_initial : reachable initial
| reach_connect s c userId :
    reachable s -> ~ connected s c -> reachable (step s (Connect c userId))
| reach_client s c ev :
    reachable s -> connected s c -> reachable (step s (Client c ev))
| reach_disconnect s c :
    reachable s -> connected s c -> reachable (step s (Disconnect c)).

(** The same conditions, decided along a run. *)
Definition is_connected (s : Server) (c : string) : bool :=
  existsb (String.eqb c) (map id (sockets s)).

Definition admissible (s : Server) (e : Event) : bool :=
  match e with
  | Connect c _ => negb (is_connected s c)
  | Client c _ => is_connected s c
  | Disconnect c => is_connected s c
  end.

Fixpoint admissible_run (s : Server) (es : list Event) : bool :=
  match es with
  | [] => true
  | e :: es' => admissible s e && admissible_run (step s e) es'
  end.

(** What every reachable state satisfies. *)
Record consistent (s : Server) : Prop := mkConsistent {
  ids_unique : NoDup (map id (sockets s));
  own_room : forall k, In k (sockets s) -> In (JStr (id k)) (rooms k);
  online_bound : forall u p,
      JsMap.get u (onlineUsers s) = Some p ->
      connected s (socketId p) /\ JsMap.get (socketId p) (userSockets s) = Some u;
  bound_connected : forall c u,
      JsMap.get c (userSockets s) = Some u -> connected s c /\ u <> ""
}.

(** ** The claims that fail, as stated *)

(** Claim C1 as the specification has it: after [U] has registered on
    [C1] and then on [C2], the disconnect of [C1] leaves [U] bound to
    [C2]. *)
Definition stale_disconnect_is_noop (s : Server) (U C1 C2 : string) : Prop :=
  let s2 := run s [Connect C1 (JStr U); Connect C2 (JStr U)] in
  let s3 := step s2 (Disconnect C1) in
  lookupChannel s3 U = Some C2 /\ In U (snapshotUserIds s3).

(** Claim C2 as the specification has it: when [c] connects as [u], no
    other connected socket receives an [onlineUsersList]. *)
Definition roster_to_new_channel_only (s : Server) (c u : string) : Prop :=
  let s0 := open_socket s c in
  let out := snd (on_connection s0 c (JStr u)) in
  forall c', connected s0 c' -> c' <> c ->
             ~ In "onlineUsersList" (map fst (inbox (sockets s0) out c')).

(** ** Sample runs *)

(** One user on two tabs. *)
Definition two_tabs : Server :=
  run initial [Connect "c1" (JStr "u"); Connect "c2" (JStr "u")].

(** Two users, both in conversation "r1"; a third socket without userId
    that joined nothing. *)
Definition lobby : Server :=
  run initial [Connect "a" (JStr "u1"); Connect "b" (JStr "u2");
               Connect "x" JUndefined;
               Client "a" (JoinConversation (JStr "r1"));
               Client "b" (JoinConversation (JStr "r1"));
               Client "a" (JoinConversation (JStr "r2"))].

Definition hello : JsVal :=
  JObj [("conversationId", JStr "r1"); ("content", JStr "hello")].

Definition untitled : JsVal := JObj [("content", JStr "hello")].

Definition offer : JsVal :=
  JObj [("to", JStr "u2"); ("from", JStr "u1"); ("signal", JStr "sdp")].

Definition candidate_for_u2 : JsVal :=
  JObj [("to", JStr "u2"); ("candidate", JStr "ice")].

(** The object [{"toString": 1}], which has no string. *)
Definition stringless : JsVal := JObj [("toString", JNum 1)].

(** A call whose [to] is that object instead of a userId. *)
Definition call_to_stringless : JsVal :=
  JObj [("to", stringless); ("from", JStr "u1"); ("signal", JStr "sdp")].

(** ** More sample runs and payloads *)

(** A handshake whose query repeats the parameter: [userId] is an array. *)
Definition repeated_userId : JsVal := JArr [JStr "u1"; JStr "u9"].

(** The lobby after the anonymous socket "x" joined the room named after
    the id of socket "b". *)
Definition lobby_with_listener : Server :=
  step lobby (Client "x" (JoinConversation (JStr "b"))).

Definition typing_in_r1 : JsVal :=
  JObj [("conversationId", JStr "r1"); ("userId", JStr "u2");
        ("draft", JStr "hel")].

Definition read_in_r1 : JsVal :=
  JObj [("conversationId", JStr "r1"); ("userId", JStr "u1");
        ("messageIds", JArr [JStr "m1"; JStr "m2"])].

Definition answer : JsVal :=
  JObj [("to", JStr "u1"); ("from", JStr "u2"); ("signal", JStr "sdp-answer")].

(** The payload a handler destructures, if it destructures one. *)
Definition destructured_payload (ev : ClientEvent) : option JsVal :=
  match ev with
  | JoinConversation _ => None
  | RequestOnlineUsers => None
  | SendMessage v | MessageRead v | StartTyping v | StopTyping v
  | CallUser v | AnswerMade v | IceCandidate v => Some v
  end.

Definition nullish (v : JsVal) : bool :=
  match v with
  | JUndefined | JNull => true
  | _ => false
  end.

(** The events of the room relay, which go to a room and leave the
    sender out. *)
Definition room_event (name : string) : bool :=
  (name =? "newMessage") || (name =? "messageRead")
  || (name =? "startTyping") || (name =? "stopTyping").

(** Whether the socket of id [c] is in room [r]. *)
Definition joined (s : Server) (c : string) (r : JsVal) : bool :=
  existsb (same_room r) (rooms_of s c).

(** A run of client events, each with its sender. *)
Definition clients (evs : list (string * ClientEvent)) : list Event :=
  map (fun ce => Client (fst ce) (snd ce)) evs.

(** ** The earlier server, [src/server.js]

    The server that is attached to the Next.js application keeps the
    same two maps but differs in its handlers: the roster goes to the
    new socket only, any truthy [userId] is registered, a conversation
    can be left, and the relay handlers have no guards. *)

Module NextServer.

(** [socket.handshake.query.userId]: absent, one value, or the array of
    a repeated parameter. *)
Inductive QueryValue : Type :=
| QAbsent
| QString (s : string)
| QArray (items : list string).

(** A truthy [userId] as a key of [onlineUsers].  A [Map] compares
    strings by value and arrays by identity; the one array a handshake
    can bring is identified by the socket that brought it. *)
Inductive UserId : Type :=
| UString (s : string)
| UArray (owner : string) (items : list string).

Definition same_user (a b : UserId) : bool :=
  match a, b with
  | UString x, UString y => x =? y
  | UArray o _, UArray o' _ => o =? o'
  | _, _ => false
  end.

Definition js_of_user (u : UserId) : JsVal :=
  match u with
  | UString s => JStr s
  | UArray _ items => JArr (map JStr items)
  end.

(** [userId], when [if (userId)] lets it through. *)
Definition truthy_userId (c : string) (q : QueryValue) : option UserId :=
  match q with
  | QAbsent => None
  | QString s => if s =? "" then None else Some (UString s)
  | QArray items => Some (UArray c items)
  end.

(** [onlineUsers], in insertion order. *)
Definition Users : Type := list (UserId * Presence).

Fixpoint users_get (u : UserId) (m : Users) : option Presence :=
  match m with
  | [] => None
  | (u', p) :: m' => if same_user u u' then Some p else users_get u m'
  end.

Fixpoint users_set (u : UserId) (p : Presence) (m : Users) : Users :=
  match m with
  | [] => [(u, p)]
  | (u', p') :: m' =>
      if same_user u u' then (u, p) :: m' else (u', p') :: users_set u p m'
  end.

Definition users_delete (u : UserId) (m : Users) : Users :=
  filter (fun e => negb (same_user u (fst e))) m.

Definition users_keys (m : Users) : list UserId := map fst m.

Record State : Type := mkState {
  onlineUsers : Users;
  userSockets : JsMap.t UserId;
  sockets : list Socket
}.

Definition initial : State := mkState [] JsMap.empty [].

Definition Reply : Type := (State * list Emission)%type.

Definition open_socket (s : State) (c : string) : State :=
  mkState (onlineUsers s) (userSockets s) (sockets s ++ [mkSocket c [JStr c]]).

Definition close_socket (s : State) (c : string) : State :=
  mkState (onlineUsers s) (userSockets s)
          (filter (fun k => negb (id k =? c)) (sockets s)).

(** [socket.join(room)]. *)
Definition socket_join (s : State) (c : string) (room : JsVal) : State :=
  mkState (onlineUsers s) (userSockets s)
          (map (fun k => if id k =? c
                         then mkSocket (id k) (add_rooms (room_list room) (rooms k))
                         else k)
               (sockets s)).

(** [socket.leave(room)]: one room, removed from the socket's set. *)
Definition socket_leave (s : State) (c : string) (room : JsVal) : State :=
  mkState (onlineUsers s) (userSockets s)
          (map (fun k => if id k =? c
                         then mkSocket (id k)
                                (filter (fun r => negb (same_room room r)) (rooms k))
                         else k)
               (sockets s)).

(** Lines 44-60. *)
Definition on_connection (s : State) (c : string) (q : QueryValue) : Reply :=
  match truthy_userId c q with
  | Some userId =>
      let s1 := mkState (users_set userId (mkPresence c "online") (onlineUsers s))
                        (userSockets s) (sockets s) in
      let s2 := mkState (onlineUsers s1) (JsMap.set c userId (userSockets s1))
                        (sockets s1) in
      let onlineUserIds := JArr (map js_of_user (users_keys (onlineUsers s2))) in
      (s2, [mkEmission (BroadcastFrom c) "userOnline" (js_of_user userId);
            mkEmission (ToSocket c) "onlineUsersList" onlineUserIds])
  | None => (s, [])
  end.

(** Lines 63-66.  The [console.log] after the join interpolates
    [conversationId]. *)
Definition on_joinConversation (s : State) (c : string) (conversationId : JsVal)
  : Outcome Reply :=
  logged [conversationId] (socket_join s c conversationId, []).

(** Lines 68-71.  The [console.log] after the leave interpolates
    [conversationId]. *)
Definition on_leaveConversation (s : State) (c : string) (conversationId : JsVal)
  : Outcome Reply :=
  logged [conversationId] (socket_leave s c conversationId, []).

(** Lines 73-79.  Reading [message.conversationId] throws on [undefined]
    and [null] as a destructuring does. *)
Definition on_sendMessage (s : State) (c : string) (message : JsVal)
  : Outcome Reply :=
  let* f := destructure message in
  let conversationId := f "conversationId" in
  if truthy conversationId then
    Returned (s, [mkEmission (RoomFrom c conversationId) "newMessage" message])
  else Returned (s, []).

(** Lines 81-83 and 85-87. *)
Definition on_typing (name : string) (s : State) (c : string) (data : JsVal)
  : Outcome Reply :=
  let* f := destructure data in
  let conversationId := f "conversationId" in
  let userId := f "userId" in
  Returned (s, [mkEmission (RoomFrom c conversationId) name
                  (JObj [("conversationId", conversationId);
                         ("userId", userId)])]).

(** Lines 90-101.  The [disconnect] listener runs when the library has
    already dropped the socket. *)
Definition on_disconnect (s : State) (c : string) : Reply :=
  match JsMap.get c (userSockets s) with
  | Some disconnectedUserId =>
      if truthy (js_of_user disconnectedUserId) then
        let s1 := mkState (users_delete disconnectedUserId (onlineUsers s))
                          (userSockets s) (sockets s) in
        let s2 := mkState (onlineUsers s1) (JsMap.delete c (userSockets s1))
                          (sockets s1) in
        (s2, [mkEmission (BroadcastFrom c) "userOffline"
                (js_of_user disconnectedUserId)])
      else (s, [])
  | None => (s, [])
  end.

Inductive ClientEvent : Type :=
| JoinConversation (conversationId : JsVal)
| LeaveConversation (conversationId : JsVal)
| SendMessage (message : JsVal)
| StartTyping (data : JsVal)
| StopTyping (data : JsVal).

Definition handle (s : State) (c : string) (ev : ClientEvent) : Outcome Reply :=
  match ev with
  | JoinConversation v => on_joinConversation s c v
  | LeaveConversation v => on_leaveConversation s c v
  | SendMessage v => on_sendMessage s c v
  | StartTyping v => on_typing "startTyping" s c v
  | StopTyping v => on_typing "stopTyping" s c v
  end.

Definition state_after (s : State) (o : Outcome Reply) : State :=
  match o with
  | Returned (s', _) => s'
  | Threw _ => s
  | ThrewAfter (s', _) _ => s'
  end.

Definition emitted (o : Outcome Reply) : list Emission :=
  match o with
  | Returned (_, out) => out
  | Threw _ => []
  | ThrewAfter (_, out) _ => out
  end.

Inductive Event : Type :=
| Connect (c : string) (q : QueryValue)
| Client (c : string) (ev : ClientEvent)
| Disconnect (c : string).

Definition step (s : State) (e : Event) : State :=
  match e with
  | Connect c q => fst (on_connection (open_socket s c) c q)
  | Client c ev => state_after s (handle s c ev)
  | Disconnect c => fst (on_disconnect (close_socket s c) c)
  end.

Definition run (s : State) (es : list Event) : State := fold_left step es s.

Definition lookupChannel (s : State) (u : UserId) : option string :=
  option_map socketId (users_get u (onlineUsers s)).

(** Two users in conversation "r1". *)
Definition pair : State :=
  run initial [Connect "a" (QString "u1"); Connect "b" (QString "u2");
               Client "a" (JoinConversation (JStr "r1"));
               Client "b" (JoinConversation (JStr "r1"))].

End NextServer.

(** ** The standalone server (the second listing of [src/unnamed/part_000])

    Its [sendMessage] handler, lines 304-311 of the listing: the
    conversation of a message is [message.conversationId] or else
    [message.conversation?._id]. *)

Module StandaloneServer.

(** [message.conversation?._id], given the properties of [message]. *)
Definition nested_conversation_id (f : string -> JsVal) : JsVal :=
  match destructure (f "conversation") with
  | Returned g => g "_id"
  | _ => JUndefined
  end.

(** The handler reads [message.content] first, which throws on
    [undefined] and [null]; the [console.log] after the emit interpolates
    the conversation id. *)
Definition on_sendMessage (c : string) (message : JsVal)
  : Outcome (list Emission) :=
  let* f := destructure message in
  let conversationId :=
    if truthy (f "conversationId") then f "conversationId"
    else nested_conversation_id f in
  if truthy conversationId then
    logged [conversationId]
           [mkEmission (RoomFrom c conversationId) "newMessage" message]
  else Returned [].

(** A message that names its conversation in a nested object only. *)
Definition nested : JsVal :=
  JObj [("content", JStr "hello");
        ("conversation", JObj [("_id", JStr "r1"); ("title", JStr "Team")])].

End StandaloneServer.

(** * Proofs *)

Unset Implicit Arguments.

(** ** Facts about the insertion-ordered map *)

Module JsMapFacts.
Section WithValue.
Variable V : Type.
Implicit Types (m : JsMap.t V) (k : string) (v : V).

Lemma get_set_same k v m : JsMap.get k (JsMap.set k v m) = Some v.
Proof.
  induction m as [|[k' v'] m IH]; simpl.
  - now rewrite String.eqb_refl.
  - destruct (k =? k') eqn:E; simpl.
    + now rewrite String.eqb_refl.
    + now rewrite E.
Qed.

Lemma get_set_other k k' v m :
  k <> k' -> JsMap.get k' (JsMap.set k v m) = JsMap.get k' m.
Proof.
  intros Hne. induction m as [|[k0 v0] m IH]; simpl.
  - destruct (k' =? k) eqn:E; [|reflexivity].
    apply String.eqb_eq in E. congruence.
  - destruct (k =? k0) eqn:E; simpl.
    + apply String.eqb_eq in E. subst k0.
      destruct (k' =? k) eqn:E'; [|reflexivity].
      apply String.eqb_eq in E'. congruence.
    + now rewrite IH.
Qed.

Lemma get_delete_same k m : JsMap.get k (JsMap.delete k m) = None.
Proof.
  induction m as [|[k' v'] m IH]; simpl; [reflexivity|].
  destruct (k =? k') eqn:E; simpl; [assumption|].
  now rewrite E.
Qed.

Lemma get_delete_other k k' m :
  k <> k' -> JsMap.get k' (JsMap.delete k m) = JsMap.get k' m.
Proof.
  intros Hne. induction m as [|[k0 v0] m IH]; simpl; [reflexivity|].
  destruct (k =? k0) eqn:E; simpl.
  - apply String.eqb_eq in E. subst k0.
    destruct (k' =? k) eqn:E'; [|assumption].
    apply String.eqb_eq in E'. congruence.
  - now rewrite IH.
Qed.

Lemma get_delete_some k k' m v :
  JsMap.get k' (JsMap.delete k m) = Some v ->
  k <> k' /\ JsMap.get k' m = Some v.
Proof.
  intros H. destruct (String.eqb_spec k k') as [->|Hne].
  - now rewrite get_delete_same in H.
  - split; [assumption|]. now rewrite get_delete_other in H.
Qed.

Lemma get_none_keys k m : JsMap.get k m = None <-> ~ In k (JsMap.keys m).
Proof.
  induction m as [|[k' v'] m IH]; simpl.
  - tauto.
  - destruct (String.eqb_spec k k') as [->|Hne].
    + split; [discriminate|]. intros H. exfalso. apply H. now left.
    + rewrite IH. split.
      * intros H [E|HIn]; [congruence|tauto].
      * tauto.
Qed.

Lemma get_some_keys k m v : JsMap.get k m = Some v -> In k (JsMap.keys m).
Proof.
  intros H. destruct (in_dec string_dec k (JsMap.keys m)) as [HIn|HIn].
  - assumption.
  - apply get_none_keys in HIn. congruence.
Qed.

(** A new key goes to the end. *)
Lemma keys_set_fresh k v m :
  JsMap.get k m = None -> JsMap.keys (JsMap.set k v m) = JsMap.keys m ++ [k].
Proof.
  induction m as [|[k' v'] m IH]; simpl; [reflexivity|].
  destruct (k =? k') eqn:E; [discriminate|].
  intros H. simpl. f_equal. now apply IH.
Qed.

(** A present key keeps its place. *)
Lemma keys_set_present k v v0 m :
  JsMap.get k m = Some v0 -> JsMap.keys (JsMap.set k v m) = JsMap.keys m.
Proof.
  induction m as [|[k' v'] m IH]; simpl; [discriminate|].
  destruct (k =? k') eqn:E.
  - apply String.eqb_eq in E. now subst.
  - intros H. simpl. f_equal. now apply IH.
Qed.

Lemma in_keys_set k v m : In k (JsMap.keys (JsMap.set k v m)).
Proof.
  apply get_some_keys with (v := v). apply get_set_same.
Qed.

Lemma keys_delete k m :
  JsMap.keys (JsMap.delete k m)
  = filter (fun x => negb (k =? x)) (JsMap.keys m).
Proof.
  induction m as [|[k' v'] m IH]; simpl; [reflexivity|].
  destruct (k =? k'); simpl; now rewrite ?IH.
Qed.

Lemma keys_delete_absent k m :
  ~ In k (JsMap.keys m) -> JsMap.keys (JsMap.delete k m) = JsMap.keys m.
Proof.
  rewrite keys_delete. induction (JsMap.keys m) as [|x l IH]; simpl.
  - reflexivity.
  - intros H. destruct (String.eqb_spec k x) as [->|Hne]; simpl.
    + exfalso. apply H. now left.
    + f_equal. apply IH. tauto.
Qed.

Lemma not_in_keys_delete k m : ~ In k (JsMap.keys (JsMap.delete k m)).
Proof.
  apply get_none_keys. apply get_delete_same.
Qed.
End WithValue.
End JsMapFacts.

(** ** Facts about the transport *)

Lemma in_recipients socks t c :
  In c (recipients socks t) <->
  exists k, In k socks /\ id k = c /\ reaches t k = true.
Proof.
  unfold recipients. rewrite in_map_iff. split.
  - intros (k & Hid & HIn). apply filter_In in HIn. exists k. tauto.
  - intros (k & HIn & Hid & Hr). exists k. split; [assumption|].
    apply filter_In. tauto.
Qed.

Lemma same_id_same_socket (socks : list Socket) k k' :
  NoDup (map id socks) -> In k socks -> In k' socks -> id k = id k' -> k = k'.
Proof.
  induction socks as [|k0 socks IH]; simpl; [tauto|].
  intros Hnd [E|HIn] [E'|HIn'] Hid; inversion Hnd as [|? ? Hnot Hnd']; subst.
  - reflexivity.
  - exfalso. apply Hnot. rewrite Hid. now apply in_map.
  - exfalso. apply Hnot. rewrite <- Hid. now apply in_map.
  - now apply IH.
Qed.

(** With unique ids, a connected socket is a recipient exactly when the
    emission reaches it. *)
Lemma recipient_iff_reaches socks t k :
  NoDup (map id socks) -> In k socks ->
  (In (id k) (recipients socks t) <-> reaches t k = true).
Proof.
  intros Hnd HIn. rewrite in_recipients. split.
  - intros (k' & HIn' & Hid & Hr).
    now rewrite <- (@same_id_same_socket socks k' k Hnd HIn' HIn Hid).
  - intros Hr. exists k. tauto.
Qed.

Lemma received_true socks t c :
  received socks t c = true <-> In c (recipients socks t).
Proof.
  unfold received. rewrite existsb_exists. split.
  - intros (x & HIn & E). apply String.eqb_eq in E. now subst.
  - intros HIn. exists c. split; [assumption|apply String.eqb_refl].
Qed.

Lemma received_false socks t c :
  received socks t c = false <-> ~ In c (recipients socks t).
Proof.
  rewrite <- received_true. destruct (received socks t c); split;
    congruence || tauto.
Qed.

Lemma inbox_cons socks e out c :
  inbox socks (e :: out) c
  = (if received socks (target e) c then [(event e, payload e)] else [])
      ++ inbox socks out c.
Proof.
  unfold inbox. simpl. now destruct (received socks (target e) c).
Qed.

Lemma inbox_nil socks c : inbox socks [] c = [].
Proof. reflexivity. Qed.

Lemma in_room_iff r k :
  in_room r k = true <-> exists r', In r' (rooms k) /\ same_room r r' = true.
Proof. unfold in_room. apply existsb_exists. Qed.

Lemma addressed_one r k : addressed (room_list (JStr r)) k = in_room (JStr r) k.
Proof. simpl. apply orb_false_r. Qed.

Lemma in_own_room k :
  In (JStr (id k)) (rooms k) -> in_room (JStr (id k)) k = true.
Proof.
  intros H. apply in_room_iff. exists (JStr (id k)). split; [assumption|].
  simpl. apply String.eqb_refl.
Qed.

(** [io.emit] reaches every connected socket. *)
Lemma received_io_all socks c :
  In c (map id socks) -> received socks IoAll c = true.
Proof.
  intros H. apply received_true. apply in_recipients.
  apply in_map_iff in H. destruct H as (k & Hid & HIn). exists k. tauto.
Qed.

(** [socket.broadcast.emit] reaches every connected socket but the
    sender. *)
Lemma received_broadcast socks c c' :
  received socks (BroadcastFrom c) c' = true <-> In c' (map id socks) /\ c' <> c.
Proof.
  rewrite received_true, in_recipients, in_map_iff. split.
  - intros (k & HIn & Hid & Hr). simpl in Hr. split; [now exists k|].
    subst c'. intros E. rewrite E, String.eqb_refl in Hr. discriminate.
  - intros ((k & Hid & HIn) & Hne). exists k. repeat split; try assumption.
    simpl. subst c'. destruct (String.eqb_spec (id k) c); [contradiction|reflexivity].
Qed.

(** [socket.emit] reaches no other socket. *)
Lemma received_to_socket_other socks c c' :
  c' <> c -> received socks (ToSocket c) c' = false.
Proof.
  intros Hne. apply received_false. rewrite in_recipients.
  intros (k & _ & Hid & Hr). simpl in Hr. apply String.eqb_eq in Hr. congruence.
Qed.

Lemma received_to_socket_self socks c :
  In c (map id socks) -> received socks (ToSocket c) c = true.
Proof.
  intros H. apply received_true, in_recipients.
  apply in_map_iff in H. destruct H as (k & Hid & HIn). exists k.
  repeat split; try assumption. simpl. subst c. apply String.eqb_refl.
Qed.

(** ** Frame facts about the handlers *)

Ltac handler_cases :=
  repeat match goal with
         | |- context [destructure ?v] => destruct (destructure v); simpl
         | |- context [if ?b then _ else _] => destruct b; simpl
         | |- context [match onlineUsers_get ?s ?v with _ => _ end] =>
             destruct (onlineUsers_get s v); simpl
         end.

Lemma handle_registry s c ev :
  onlineUsers (state_after s (handle s c ev)) = onlineUsers s /\
  userSockets (state_after s (handle s c ev)) = userSockets s.
Proof.
  destruct ev; simpl;
    unfold on_joinConversation, on_sendMessage, on_messageRead, on_typing,
      on_requestOnlineUsers, on_callUser, on_answerMade, logged,
      on_iceCandidate, bind;
    handler_cases; split; reflexivity.
Qed.

Lemma handle_sockets s c ev :
  sockets (state_after s (handle s c ev)) = sockets s \/
  exists room, ev = JoinConversation room /\
               sockets (state_after s (handle s c ev))
               = sockets (socket_join s c room).
Proof.
  destruct ev; simpl;
    unfold on_joinConversation, on_sendMessage, on_messageRead, on_typing,
      on_requestOnlineUsers, on_callUser, on_answerMade, logged,
      on_iceCandidate, bind;
    handler_cases; try (left; reflexivity).
  all: right; eexists; split; reflexivity.
Qed.

Lemma add_rooms_keeps new rs r : In r rs -> In r (add_rooms new rs).
Proof.
  unfold add_rooms. revert rs. induction new as [|x new IH]; simpl; intros rs H.
  - assumption.
  - apply IH. destruct (existsb (same_room x) rs); [assumption|].
    apply in_or_app. now left.
Qed.

Lemma socket_join_ids s c room :
  map id (sockets (socket_join s c room)) = map id (sockets s).
Proof.
  simpl. rewrite map_map. apply map_ext. intros k.
  now destruct (id k =? c).
Qed.

Lemma socket_join_rooms s c room k' :
  In k' (sockets (socket_join s c room)) ->
  exists k, In k (sockets s) /\ id k' = id k /\ incl (rooms k) (rooms k').
Proof.
  simpl. rewrite in_map_iff. intros (k & E & HIn). exists k.
  split; [assumption|]. destruct (id k =? c); subst k'; simpl.
  - split; [reflexivity|]. intros r. apply add_rooms_keeps.
  - split; [reflexivity|apply incl_refl].
Qed.

(** ** What connection and disconnection do to the state *)

Lemma connection_registers s c u :
  u <> "" ->
  on_connection s c (JStr u)
  = (mkServer (JsMap.set u (mkPresence c "online") (onlineUsers s))
              (JsMap.set c u (userSockets s)) (sockets s),
     [mkEmission (BroadcastFrom c) "userOnline" (JStr u);
      mkEmission IoAll "onlineUsersList"
        (JArr (map JStr (JsMap.keys
                 (JsMap.set u (mkPresence c "online") (onlineUsers s)))))]).
Proof.
  intros Hne. unfold on_connection. simpl.
  destruct (String.eqb_spec u ""); [contradiction|reflexivity].
Qed.

Lemma connection_anonymous s c userId :
  (forall u, userId = JStr u -> u = "") -> on_connection s c userId = (s, []).
Proof.
  intros H. destruct userId; try reflexivity. simpl.
  now rewrite (H s0 eq_refl).
Qed.

Lemma disconnection_registered s c u :
  JsMap.get c (userSockets s) = Some u -> u <> "" ->
  handleUserDisconnection s c
  = (mkServer (JsMap.delete u (onlineUsers s))
              (JsMap.delete c (userSockets s)) (sockets s),
     left_room_notices s c ++
     [mkEmission (BroadcastFrom c) "userOffline" (JStr u);
      mkEmission IoAll "onlineUsersList"
        (JArr (map JStr (JsMap.keys (JsMap.delete u (onlineUsers s)))))]).
Proof.
  intros Hget Hne. unfold handleUserDisconnection, userSockets_get.
  rewrite Hget. simpl.
  destruct (String.eqb_spec u ""); [contradiction|reflexivity].
Qed.

Lemma disconnection_unregistered s c :
  JsMap.get c (userSockets s) = None ->
  handleUserDisconnection s c = (s, left_room_notices s c).
Proof.
  intros Hget. unfold handleUserDisconnection, userSockets_get.
  now rewrite Hget.
Qed.

(** ** The invariant *)

Lemma NoDup_snoc (A : Type) (l : list A) (x : A) :
  NoDup l -> ~ In x l -> NoDup (l ++ [x]).
Proof.
  induction l as [|y l IH]; simpl; intros Hnd Hx.
  - constructor; [tauto|constructor].
  - inversion Hnd as [|? ? Hy Hnd']; subst. constructor.
    + rewrite in_app_iff. simpl. intros [H|[H|[]]]; [tauto|]. apply Hx. now left.
    + apply IH; tauto.
Qed.

Lemma ids_after_close (socks : list Socket) c :
  map id (filter (fun k => negb (id k =? c)) socks)
  = filter (fun x => negb (x =? c)) (map id socks).
Proof.
  induction socks as [|k socks IH]; simpl; [reflexivity|].
  destruct (id k =? c); simpl; now rewrite IH.
Qed.

Lemma connected_after_close s c c' :
  connected (close_socket s c) c' <-> connected s c' /\ c' <> c.
Proof.
  unfold connected, close_socket. simpl. rewrite ids_after_close, filter_In.
  destruct (String.eqb_spec c' c); simpl; intuition congruence.
Qed.

Lemma connected_after_open s c c' :
  connected (open_socket s c) c' <-> connected s c' \/ c' = c.
Proof.
  unfold connected, open_socket. simpl. rewrite map_app, in_app_iff. simpl.
  intuition congruence.
Qed.

Lemma consistent_initial : consistent initial.
Proof.
  split; simpl; try (intros; discriminate || contradiction). constructor.
Qed.

Lemma consistent_open s c :
  consistent s -> ~ connected s c -> consistent (open_socket s c).
Proof.
  intros [Hids Hown Hon Hus] Hfresh. split.
  - simpl. rewrite map_app. now apply NoDup_snoc.
  - simpl. intros k HIn. apply in_app_iff in HIn. destruct HIn as [HIn|[<-|[]]].
    + now apply Hown.
    + simpl. now left.
  - intros u p Hget. destruct (Hon u p Hget) as [Hc Hb]. split; [|assumption].
    apply connected_after_open. now left.
  - intros c' u Hget. destruct (Hus c' u Hget) as [Hc Hne]. split; [|assumption].
    apply connected_after_open. now left.
Qed.

Lemma consistent_connect s c userId :
  consistent s -> ~ connected s c -> consistent (step s (Connect c userId)).
Proof.
  intros Hs Hfresh. pose proof (consistent_open s c Hs Hfresh) as H0. simpl.
  destruct userId as [| | | |u| |];
    try (rewrite connection_anonymous by (intros; discriminate); exact H0).
  destruct (String.eqb_spec u "") as [->|Hne].
  { rewrite connection_anonymous by (intros ? [= <-]; reflexivity). exact H0. }
  rewrite connection_registers by assumption. simpl.
  destruct H0 as [Hids Hown Hon Hus]. split; simpl.
  - exact Hids.
  - exact Hown.
  - intros u' p. destruct (String.eqb_spec u u') as [<-|Hu].
    + rewrite JsMapFacts.get_set_same. intros [= <-]. simpl. split.
      * apply connected_after_open. now right.
      * apply JsMapFacts.get_set_same.
    + rewrite JsMapFacts.get_set_other by assumption. intros Hget.
      destruct (online_bound Hs _ Hget) as [Hc Hb]. split.
      * apply connected_after_open. now left.
      * rewrite JsMapFacts.get_set_other; [assumption|]. intros E. rewrite <- E in Hc. contradiction.
  - intros c' u'. destruct (String.eqb_spec c c') as [<-|Hc].
    + rewrite JsMapFacts.get_set_same. intros [= <-]. split; [|assumption].
      apply connected_after_open. now right.
    + rewrite JsMapFacts.get_set_other by assumption. apply Hus.
Qed.

Lemma consistent_client s c ev :
  consistent s -> consistent (step s (Client c ev)).
Proof.
  intros [Hids Hown Hon Hus]. simpl.
  destruct (handle_registry s c ev) as [Eon Eus].
  assert (Eids : map id (sockets (state_after s (handle s c ev)))
                 = map id (sockets s)).
  { destruct (handle_sockets s c ev) as [->|(room & _ & ->)];
      [reflexivity|apply socket_join_ids]. }
  split; unfold connected; rewrite ?Eon, ?Eus, ?Eids; try assumption.
  intros k HIn.
  destruct (handle_sockets s c ev) as [E|(room & _ & E)]; rewrite E in HIn.
  - now apply Hown.
  - apply socket_join_rooms in HIn. destruct HIn as (k0 & HIn0 & Eid & Hincl).
    apply Hincl. rewrite Eid. now apply Hown.
Qed.

Lemma consistent_close s c :
  consistent s -> JsMap.get c (userSockets s) = None ->
  consistent (close_socket s c).
Proof.
  intros [Hids Hown Hon Hus] Hnone. split.
  - simpl. rewrite ids_after_close. now apply NoDup_filter.
  - simpl. intros k HIn. apply filter_In in HIn. now apply Hown.
  - simpl. intros u p Hget. destruct (Hon u p Hget) as [Hc Hb].
    split; [|assumption]. apply connected_after_close. split; [assumption|].
    intros E. rewrite E in Hb. congruence.
  - simpl. intros c' u Hget. destruct (Hus c' u Hget) as [Hc Hne].
    split; [|assumption]. apply connected_after_close. split; [assumption|].
    intros E. rewrite E in Hget. congruence.
Qed.

Lemma consistent_disconnect s c :
  consistent s -> consistent (step s (Disconnect c)).
Proof.
  intros Hs. simpl. unfold on_disconnecting.
  destruct (JsMap.get c (userSockets s)) as [u|] eqn:Hget.
  - destruct (bound_connected Hs _ Hget) as [_ Hne].
    rewrite (disconnection_registered s c u Hget Hne). simpl.
    apply consistent_close; [|apply JsMapFacts.get_delete_same].
    destruct Hs as [Hids Hown Hon Hus]. split; simpl; try assumption.
    + intros u' p Hget'. apply JsMapFacts.get_delete_some in Hget'.
      destruct Hget' as [Hu Hget']. destruct (Hon u' p Hget') as [Hc Hb].
      split; [assumption|]. rewrite JsMapFacts.get_delete_other; [assumption|].
      intros E. rewrite <- E in Hb. congruence.
    + intros c' u' Hget'. apply JsMapFacts.get_delete_some in Hget'.
      now apply Hus.
  - rewrite (disconnection_unregistered s c Hget). simpl.
    now apply consistent_close.
Qed.

(** Every reachable state is consistent. *)
Lemma reachable_consistent s : reachable s -> consistent s.
Proof.
  induction 1.
  - apply consistent_initial.
  - now apply consistent_connect.
  - now apply consistent_client.
  - now apply consistent_disconnect.
Qed.

(** ** Reachability of runs *)

Lemma is_connected_iff s c : is_connected s c = true <-> connected s c.
Proof.
  unfold is_connected, connected. rewrite existsb_exists. split.
  - intros (x & HIn & E). apply String.eqb_eq in E. now subst.
  - intros HIn. exists c. split; [assumption|apply String.eqb_refl].
Qed.

Lemma reachable_step s e :
  reachable s -> admissible s e = true -> reachable (step s e).
Proof.
  intros Hs Ha. destruct e as [c userId|c ev|c]; simpl in Ha.
  - apply reach_connect; [assumption|]. rewrite <- is_connected_iff.
    now destruct (is_connected s c).
  - apply reach_client; [assumption|]. now apply is_connected_iff.
  - apply reach_disconnect; [assumption|]. now apply is_connected_iff.
Qed.

Lemma reachable_run s es :
  reachable s -> admissible_run s es = true -> reachable (run s es).
Proof.
  revert s. induction es as [|e es IH]; simpl; intros s Hs Ha.
  - assumption.
  - apply andb_prop in Ha. destruct Ha as [Ha Hrest].
    apply IH; [now apply reachable_step|assumption].
Qed.

Lemma reachable_two_tabs : reachable two_tabs.
Proof. apply reachable_run; [apply reach_initial|reflexivity]. Qed.

Lemma reachable_lobby : reachable lobby.
Proof. apply reachable_run; [apply reach_initial|reflexivity]. Qed.

(** * The presence registry (C1, C8, C9) *)

(** The state after [U] registers on [C1] and then on [C2]. *)
Lemma registry_after_two_connects s U1 C1 U2 C2 :
  U1 <> "" -> U2 <> "" ->
  onlineUsers (run s [Connect C1 (JStr U1); Connect C2 (JStr U2)])
  = JsMap.set U2 (mkPresence C2 "online")
      (JsMap.set U1 (mkPresence C1 "online") (onlineUsers s)) /\
  userSockets (run s [Connect C1 (JStr U1); Connect C2 (JStr U2)])
  = JsMap.set C2 U2 (JsMap.set C1 U1 (userSockets s)).
Proof.
  intros H1 H2. unfold run. cbn [fold_left step].
  rewrite (connection_registers _ C2 U2 H2).
  rewrite (connection_registers _ C1 U1 H1). simpl. split; reflexivity.
Qed.

Lemma registry_after_disconnect s c u :
  JsMap.get c (userSockets s) = Some u -> u <> "" ->
  onlineUsers (step s (Disconnect c)) = JsMap.delete u (onlineUsers s) /\
  userSockets (step s (Disconnect c)) = JsMap.delete c (userSockets s).
Proof.
  intros Hget Hne. simpl. unfold on_disconnecting.
  rewrite (disconnection_registered s c u Hget Hne). simpl. split; reflexivity.
Qed.

(** C1, as stated, fails: with user "u" registered on "c1" and then on
    "c2", the disconnect of "c1" takes the entry of "u" away, so
    [lookupChannel] does not return "c2". *)
Lemma C1_stale_disconnect_evicts :
  ~ stale_disconnect_is_noop initial "u" "c1" "c2".
Proof.
  unfold stale_disconnect_is_noop. intros [H _]. vm_compute in H. discriminate.
Qed.

(** C1, amended: for a non-empty user [U] and distinct channels [C1],
    [C2], after [U] registers on [C1] and then on [C2], the disconnect of
    [C1] removes the presence entry of [U]: [lookupChannel U] is absent
    and [U] is not in the roster any more, while [C2] stays bound to [U]
    in the reverse map. *)
Theorem C1_disconnect_of_replaced_channel_evicts s U C1 C2 :
  U <> "" -> C1 <> C2 ->
  lookupChannel
    (step (run s [Connect C1 (JStr U); Connect C2 (JStr U)]) (Disconnect C1)) U
  = None /\
  ~ In U (snapshotUserIds
            (step (run s [Connect C1 (JStr U); Connect C2 (JStr U)])
                  (Disconnect C1))) /\
  JsMap.get C2 (userSockets
                  (step (run s [Connect C1 (JStr U); Connect C2 (JStr U)])
                        (Disconnect C1)))
  = Some U.
Proof.
  intros HU HC.
  destruct (registry_after_two_connects s U C1 U C2 HU HU) as [Eon Eus].
  assert (Hget : JsMap.get C1 (userSockets
                   (run s [Connect C1 (JStr U); Connect C2 (JStr U)])) = Some U).
  { rewrite Eus, JsMapFacts.get_set_other by congruence.
    apply JsMapFacts.get_set_same. }
  destruct (registry_after_disconnect _ C1 U Hget HU) as [Eon' Eus'].
  unfold lookupChannel, snapshotUserIds. rewrite Eon', Eus', Eus.
  repeat split.
  - now rewrite JsMapFacts.get_delete_same.
  - apply JsMapFacts.not_in_keys_delete.
  - rewrite JsMapFacts.get_delete_other by assumption.
    apply JsMapFacts.get_set_same.
Qed.

Lemma C1_disconnect_of_replaced_channel_evicts_witness :
  "u" <> "" /\ "c1" <> "c2" /\
  lookupChannel (step two_tabs (Disconnect "c1")) "u" = None.
Proof.
  split; [discriminate|]. split; [discriminate|].
  apply (C1_disconnect_of_replaced_channel_evicts initial "u" "c1" "c2");
    discriminate.
Defined.

(** C8: [snapshotUserIds] lists the current users in insertion order.
    When [U1] and then [U2] register, neither being online before, the
    roster is the former roster followed by [U1], [U2] (so [U1; U2] from
    the empty registry); after the channel of [U1] disconnects it is the
    former roster followed by [U2] (so [U2] alone). *)
Theorem C8_snapshot_in_insertion_order s U1 C1 U2 C2 :
  U1 <> "" -> U2 <> "" -> U1 <> U2 -> C1 <> C2 ->
  isOnline s U1 = false -> isOnline s U2 = false ->
  snapshotUserIds (run s [Connect C1 (JStr U1); Connect C2 (JStr U2)])
  = snapshotUserIds s ++ [U1; U2] /\
  snapshotUserIds
    (step (run s [Connect C1 (JStr U1); Connect C2 (JStr U2)]) (Disconnect C1))
  = snapshotUserIds s ++ [U2].
Proof.
  intros H1 H2 HU HC Hoff1 Hoff2.
  destruct (registry_after_two_connects s U1 C1 U2 C2 H1 H2) as [Eon Eus].
  assert (N1 : JsMap.get U1 (onlineUsers s) = None).
  { unfold isOnline in Hoff1. now destruct (JsMap.get U1 (onlineUsers s)). }
  assert (N2 : JsMap.get U2 (onlineUsers s) = None).
  { unfold isOnline in Hoff2. now destruct (JsMap.get U2 (onlineUsers s)). }
  assert (Ekeys : snapshotUserIds
                    (run s [Connect C1 (JStr U1); Connect C2 (JStr U2)])
                  = snapshotUserIds s ++ [U1; U2]).
  { unfold snapshotUserIds. rewrite Eon.
    rewrite JsMapFacts.keys_set_fresh.
    - rewrite JsMapFacts.keys_set_fresh by assumption.
      now rewrite <- app_assoc.
    - rewrite JsMapFacts.get_set_other by assumption. assumption. }
  split; [assumption|].
  assert (Hget : JsMap.get C1 (userSockets
                   (run s [Connect C1 (JStr U1); Connect C2 (JStr U2)]))
                 = Some U1).
  { rewrite Eus, JsMapFacts.get_set_other by congruence.
    apply JsMapFacts.get_set_same. }
  destruct (registry_after_disconnect _ C1 U1 Hget H1) as [Eon' _].
  unfold snapshotUserIds in *. rewrite Eon', JsMapFacts.keys_delete, Ekeys.
  rewrite filter_app. simpl. rewrite String.eqb_refl. simpl.
  destruct (String.eqb_spec U1 U2) as [|_]; [contradiction|]. simpl.
  f_equal. rewrite <- JsMapFacts.keys_delete.
  apply JsMapFacts.keys_delete_absent. now apply JsMapFacts.get_none_keys.
Qed.

Lemma C8_snapshot_in_insertion_order_witness :
  snapshotUserIds (run initial [Connect "a" (JStr "u1"); Connect "b" (JStr "u2")])
  = ["u1"; "u2"] /\
  snapshotUserIds
    (step (run initial [Connect "a" (JStr "u1"); Connect "b" (JStr "u2")])
          (Disconnect "a"))
  = ["u2"].
Proof.
  apply (C8_snapshot_in_insertion_order initial "u1" "a" "u2" "b");
    try discriminate; reflexivity.
Defined.

(** C9: the handlers of joinConversation, sendMessage, messageRead,
    startTyping, stopTyping, request-online-users, call-user, answer-made
    and ice-candidate leave [onlineUsers] and [userSockets] as they found
    them, whatever the sender and the payload, and so does any run that
    consists of such events only. *)
Theorem C9_relay_and_signaling_leave_registry s c ev evs :
  (onlineUsers (state_after s (handle s c ev)) = onlineUsers s /\
   userSockets (state_after s (handle s c ev)) = userSockets s) /\
  (onlineUsers (run s (map (fun ce => Client (fst ce) (snd ce)) evs))
   = onlineUsers s /\
   userSockets (run s (map (fun ce => Client (fst ce) (snd ce)) evs))
   = userSockets s).
Proof.
  split; [apply handle_registry|].
  unfold run. revert s. induction evs as [|[c' ev'] evs IH]; intros s.
  - split; reflexivity.
  - cbn [map fold_left fst snd step].
    destruct (IH (state_after s (handle s c' ev'))) as [E1 E2].
    destruct (handle_registry s c' ev') as [F1 F2].
    rewrite E1, E2, F1, F2. split; reflexivity.
Qed.

(** * Connection and disconnection (C2, C3) *)

(** C2, as stated, fails: when "b" connects as "u2" while "a" is
    connected, "a" receives an [onlineUsersList] too. *)
Lemma C2_roster_reaches_other_channels :
  ~ roster_to_new_channel_only (step initial (Connect "a" (JStr "u1"))) "b" "u2".
Proof.
  unfold roster_to_new_channel_only. intros H.
  apply (H "a").
  - vm_compute. now left.
  - discriminate.
  - vm_compute. right. now left.
Qed.

(** C2, amended: on connection of a channel [c] that supplies a non-empty
    string userId [u], the code emits [userOnline u] to all other
    channels and then one [onlineUsersList] with the full current roster
    ([snapshotUserIds], which now holds [u]) to every connected channel:
    the new channel receives the roster, and every other connected
    channel receives [userOnline u] followed by the same roster. *)
Theorem C2_roster_goes_to_every_channel s c u :
  u <> "" ->
  snd (on_connection (open_socket s c) c (JStr u))
  = [mkEmission (BroadcastFrom c) "userOnline" (JStr u);
     mkEmission IoAll "onlineUsersList"
       (JArr (map JStr (snapshotUserIds
                          (fst (on_connection (open_socket s c) c (JStr u))))))] /\
  In u (snapshotUserIds (fst (on_connection (open_socket s c) c (JStr u)))) /\
  inbox (sockets (open_socket s c))
        (snd (on_connection (open_socket s c) c (JStr u))) c
  = [("onlineUsersList",
      JArr (map JStr (snapshotUserIds
                        (fst (on_connection (open_socket s c) c (JStr u))))))] /\
  forall c', connected s c' -> c' <> c ->
    inbox (sockets (open_socket s c))
          (snd (on_connection (open_socket s c) c (JStr u))) c'
    = [("userOnline", JStr u);
       ("onlineUsersList",
        JArr (map JStr (snapshotUserIds
                          (fst (on_connection (open_socket s c) c (JStr u))))))].
Proof.
  intros Hu. rewrite (connection_registers (open_socket s c) c u Hu).
  cbn [fst snd]. unfold snapshotUserIds. cbn [onlineUsers sockets].
  split; [reflexivity|]. split; [apply JsMapFacts.in_keys_set|].
  split.
  - rewrite !inbox_cons, inbox_nil. cbn [target event payload].
    replace (received (sockets (open_socket s c)) (BroadcastFrom c) c)
      with false.
    + rewrite received_io_all; [reflexivity|].
      apply (connected_after_open s c c). now right.
    + symmetry. apply not_true_is_false. intros E.
      apply received_broadcast in E. tauto.
  - intros c' Hc' Hne. rewrite !inbox_cons, inbox_nil.
    cbn [target event payload].
    assert (Hin : In c' (map id (sockets (open_socket s c)))).
    { apply (connected_after_open s c c'). now left. }
    rewrite (proj2 (received_broadcast _ c c') (conj Hin Hne)).
    now rewrite (received_io_all _ c' Hin).
Qed.

Lemma C2_roster_goes_to_every_channel_witness :
  "u2" <> "" /\
  inbox (sockets (open_socket (step initial (Connect "a" (JStr "u1"))) "b"))
        (snd (on_connection
                (open_socket (step initial (Connect "a" (JStr "u1"))) "b")
                "b" (JStr "u2")))
        "a"
  = [("userOnline", JStr "u2");
     ("onlineUsersList", JArr [JStr "u1"; JStr "u2"])].
Proof.
  split; [discriminate|].
  apply (C2_roster_goes_to_every_channel
           (step initial (Connect "a" (JStr "u1"))) "b" "u2").
  - discriminate.
  - vm_compute. now left.
  - discriminate.
Defined.

(** C3: when a channel [c] whose registered userId is [u] disconnects,
    the code emits one [user-left-room] per room of [socket.rooms] other
    than the channel's own, in order, each to that room; then exactly one
    [userOffline u], which reaches every connected channel but [c]; and
    the entry of [u] is gone from the registry: [lookupChannel u] is
    absent right after the listener and after the socket is dropped. *)
Theorem C3_disconnect_notifies_rooms_then_goes_offline s c u :
  reachable s -> JsMap.get c (userSockets s) = Some u ->
  snd (on_disconnecting s c)
  = map (fun room =>
           mkEmission (RoomFrom c room) "user-left-room"
                      (JObj [("userId", JStr u); ("room", room)]))
        (filter (not_own_room c) (rooms_of s c))
    ++ [mkEmission (BroadcastFrom c) "userOffline" (JStr u);
        mkEmission IoAll "onlineUsersList"
          (JArr (map JStr (snapshotUserIds (fst (on_disconnecting s c)))))] /\
  List.length (filter (fun e => event e =? "userOffline")
                      (snd (on_disconnecting s c))) = 1 /\
  (forall c', received (sockets s) (BroadcastFrom c) c' = true
              <-> connected s c' /\ c' <> c) /\
  lookupChannel (fst (on_disconnecting s c)) u = None /\
  lookupChannel (step s (Disconnect c)) u = None /\
  ~ In u (snapshotUserIds (step s (Disconnect c))).
Proof.
  intros Hs Hget.
  destruct (bound_connected (reachable_consistent s Hs) _ Hget) as [_ Hne].
  destruct (registry_after_disconnect s c u Hget Hne) as [Eon _].
  unfold lookupChannel, snapshotUserIds. rewrite Eon.
  unfold on_disconnecting. rewrite (disconnection_registered s c u Hget Hne).
  cbn [fst snd onlineUsers]. unfold left_room_notices, userSockets_get.
  rewrite Hget. split; [reflexivity|]. split.
  - rewrite filter_app, length_app. cbn.
    induction (filter (not_own_room c) (rooms_of s c)) as [|r l IH];
      [reflexivity|exact IH].
  - split; [intros c'; apply received_broadcast|].
    rewrite JsMapFacts.get_delete_same. repeat split.
    apply JsMapFacts.not_in_keys_delete.
Qed.

Lemma C3_disconnect_notifies_rooms_then_goes_offline_witness :
  reachable lobby /\ JsMap.get "a" (userSockets lobby) = Some "u1" /\
  snd (on_disconnecting lobby "a")
  = map (fun room =>
           mkEmission (RoomFrom "a" room) "user-left-room"
                      (JObj [("userId", JStr "u1"); ("room", room)]))
        [JStr "r1"; JStr "r2"]
    ++ [mkEmission (BroadcastFrom "a") "userOffline" (JStr "u1");
        mkEmission IoAll "onlineUsersList" (JArr [JStr "u2"])].
Proof.
  split; [exact reachable_lobby|]. split; [reflexivity|].
  apply (C3_disconnect_notifies_rooms_then_goes_offline lobby "a" "u1").
  - exact reachable_lobby.
  - reflexivity.
Defined.

(** * Room relay (C4, C5) *)

Lemma sendMessage_relays s c message v :
  get_property message "conversationId" = Some v -> truthy v = true ->
  on_sendMessage s c message
  = Returned (s, [mkEmission (RoomFrom c v) "newMessage" message]).
Proof.
  unfold get_property, on_sendMessage, bind.
  destruct (destructure message) as [f| |]; [|discriminate..].
  intros [= <-] Ht. now rewrite Ht.
Qed.

Lemma sendMessage_rejects s c message v :
  get_property message "conversationId" = Some v -> truthy v = false ->
  on_sendMessage s c message
  = Returned (s, [mkEmission (ToSocket c) "error"
                    (JObj [("message",
                            JStr "Message must have a conversationId.")])]).
Proof.
  unfold get_property, on_sendMessage, bind.
  destruct (destructure message) as [f| |]; [|discriminate..].
  intros [= <-] Ht. now rewrite Ht.
Qed.

(** C5 fails on the code for a [sendMessage] that carries no message: a
    message that is [undefined] or [null] has no conversationId, and the
    handler throws a [TypeError] at its destructuring, before the guard,
    so that no [error] event (no event at all) is emitted. *)
Theorem C5_sendMessage_without_message_throws s c :
  on_sendMessage s c JUndefined = Threw "TypeError" /\
  on_sendMessage s c JNull = Threw "TypeError" /\
  threw (on_sendMessage s c JUndefined) = true /\
  emitted (on_sendMessage s c JUndefined) = [] /\
  inbox (sockets s) (emitted (on_sendMessage s c JUndefined)) c = [].
Proof. repeat split. Qed.

Lemma received_is_reaches socks t k :
  NoDup (map id socks) -> In k socks -> received socks t (id k) = reaches t k.
Proof.
  intros Hnd HIn. pose proof (recipient_iff_reaches socks t k Hnd HIn) as H.
  rewrite <- received_true in H.
  destruct (received socks t (id k)), (reaches t k); intuition congruence.
Qed.

(** C4: a [sendMessage] from channel [A] whose message carries the
    non-empty conversationId [conv] returns normally, and its
    [newMessage] is delivered, once, to exactly the connected channels
    that are in room [conv] and are not [A]: every connected channel
    receives the message when it is such a member and nothing otherwise. *)
Theorem C4_sendMessage_reaches_room_members_except_sender s A message conv :
  reachable s ->
  get_property message "conversationId" = Some (JStr conv) -> conv <> "" ->
  threw (on_sendMessage s A message) = false /\
  forall k, In k (sockets s) ->
    inbox (sockets s) (emitted (on_sendMessage s A message)) (id k)
    = if in_room (JStr conv) k && negb (id k =? A)
      then [("newMessage", message)]
      else [].
Proof.
  intros Hs Hget Hne.
  rewrite (sendMessage_relays s A message (JStr conv) Hget).
  2:{ simpl. now destruct (String.eqb_spec conv ""). }
  split; [reflexivity|]. intros k HIn. cbn [emitted].
  rewrite inbox_cons, inbox_nil, app_nil_r. cbn [target event payload].
  rewrite (received_is_reaches (sockets s) _ k
             (ids_unique (reachable_consistent s Hs)) HIn).
  cbn [reaches]. now rewrite addressed_one.
Qed.

Lemma C4_sendMessage_reaches_room_members_except_sender_witness :
  reachable lobby /\
  get_property hello "conversationId" = Some (JStr "r1") /\ "r1" <> "" /\
  inbox (sockets lobby) (emitted (on_sendMessage lobby "a" hello)) "b"
  = [("newMessage", hello)] /\
  inbox (sockets lobby) (emitted (on_sendMessage lobby "a" hello)) "a" = [] /\
  inbox (sockets lobby) (emitted (on_sendMessage lobby "a" hello)) "x" = [].
Proof.
  split; [exact reachable_lobby|]. split; [reflexivity|].
  split; [discriminate|].
  pose proof (C4_sendMessage_reaches_room_members_except_sender
                lobby "a" hello "r1" reachable_lobby eq_refl) as H.
  destruct H as [_ H]; [discriminate|].
  split; [|split].
  - apply (H (mkSocket "b" [JStr "b"; JStr "r1"])). vm_compute. tauto.
  - apply (H (mkSocket "a" [JStr "a"; JStr "r1"; JStr "r2"])). vm_compute. tauto.
  - apply (H (mkSocket "x" [JStr "x"])). vm_compute. tauto.
Defined.

(** X28: a [sendMessage] from a connected channel [c] whose message is
    neither [undefined] nor [null] and has no conversationId (the
    property is absent, or otherwise falsy) returns normally and leaves
    the state, and so the connection, as it was; it emits one event, the
    [error] that [c] receives, no [newMessage], and no other channel
    receives anything. *)
Theorem X28_sendMessage_without_conversationId_answers_sender s c message v :
  connected s c ->
  get_property message "conversationId" = Some v -> truthy v = false ->
  threw (on_sendMessage s c message) = false /\
  state_after s (on_sendMessage s c message) = s /\
  List.length (emitted (on_sendMessage s c message)) = 1 /\
  inbox (sockets s) (emitted (on_sendMessage s c message)) c
  = [("error", JObj [("message", JStr "Message must have a conversationId.")])] /\
  (forall e, In e (emitted (on_sendMessage s c message)) ->
             event e <> "newMessage") /\
  (forall c', c' <> c ->
              inbox (sockets s) (emitted (on_sendMessage s c message)) c' = []).
Proof.
  intros Hc Hget Hv. rewrite (sendMessage_rejects s c message v Hget Hv).
  cbn [threw state_after emitted]. repeat split.
  - rewrite inbox_cons, inbox_nil. cbn [target event payload].
    now rewrite (received_to_socket_self (sockets s) c Hc).
  - intros e [<-|[]]. discriminate.
  - intros c' Hne. rewrite inbox_cons, inbox_nil. cbn [target].
    now rewrite (received_to_socket_other (sockets s) c c' Hne).
Qed.

Lemma X28_sendMessage_without_conversationId_answers_sender_witness :
  connected lobby "a" /\
  get_property untitled "conversationId" = Some JUndefined /\
  truthy JUndefined = false /\
  inbox (sockets lobby) (emitted (on_sendMessage lobby "a" untitled)) "a"
  = [("error", JObj [("message", JStr "Message must have a conversationId.")])].
Proof.
  assert (Hc : connected lobby "a") by (vm_compute; tauto).
  split; [exact Hc|]. split; [reflexivity|]. split; [reflexivity|].
  apply (X28_sendMessage_without_conversationId_answers_sender lobby "a" untitled
           JUndefined Hc);
    reflexivity.
Defined.

(** * Signaling (C6, C7, C10) *)

(** [io.to(socketId)] reaches the socket of that id. *)
Lemma received_own_room s ch :
  consistent s -> connected s ch ->
  received (sockets s) (IoTo (JStr ch)) ch = true.
Proof.
  intros Hs Hc. apply received_true, in_recipients.
  unfold connected in Hc. apply in_map_iff in Hc.
  destruct Hc as (k & Hid & HIn). exists k. repeat split; try assumption.
  cbn [reaches]. rewrite addressed_one. rewrite <- Hid.
  apply in_own_room. now apply (own_room Hs).
Qed.

Lemma lookupChannel_some s u ch :
  lookupChannel s u = Some ch ->
  exists p, JsMap.get u (onlineUsers s) = Some p /\ socketId p = ch.
Proof.
  unfold lookupChannel. destruct (JsMap.get u (onlineUsers s)) as [p|];
    [|discriminate].
  intros [= <-]. now exists p.
Qed.

(** C6 fails on the code for a [call-user] whose [to] is not registered
    and has no string: with [to] the object [{"toString": 1}] nothing is
    delivered, but the log line of the not-registered branch throws a
    [TypeError], where the claim has no exception raised.  The sibling
    handler [answer-made] drops the same data without throwing. *)
Theorem C6_callUser_throws_for_unregistered_stringless_to :
  onlineUsers_get lobby stringless = None /\
  threw (on_callUser lobby "a" call_to_stringless) = true /\
  emitted (on_callUser lobby "a" call_to_stringless) = [] /\
  threw (on_answerMade lobby "a" call_to_stringless) = false.
Proof. repeat split. Qed.

(** X29: a [call-user] event with data that can be destructured leaves
    the state as it was.  If [to] is a registered user with current
    channel [ch], one event is emitted and [ch], which is connected,
    receives exactly one [incoming-call {from, signal}]; the handler then
    throws exactly when [from] has no string for the log line.  If [to]
    is not registered, nothing is emitted, so no channel receives
    anything; the handler throws exactly when [to] has no string for the
    log line, and so never for a string. *)
Theorem X29_callUser_delivers_then_logs s c data f :
  reachable s -> destructure data = Returned f ->
  state_after s (on_callUser s c data) = s /\
  (forall u ch, f "to" = JStr u -> lookupChannel s u = Some ch ->
     connected s ch /\
     List.length (emitted (on_callUser s c data)) = 1 /\
     inbox (sockets s) (emitted (on_callUser s c data)) ch
     = [("incoming-call", JObj [("from", f "from"); ("signal", f "signal")])] /\
     threw (on_callUser s c data) = tostring_throws (f "from")) /\
  (onlineUsers_get s (f "to") = None ->
     emitted (on_callUser s c data) = [] /\
     (forall c', inbox (sockets s) (emitted (on_callUser s c data)) c' = []) /\
     threw (on_callUser s c data) = tostring_throws (f "to")).
Proof.
  intros Hs Hd. unfold on_callUser, bind, logged. rewrite Hd.
  pose proof (reachable_consistent s Hs) as Hcons.
  split.
  { destruct (onlineUsers_get s (f "to")); cbn [existsb];
      match goal with |- context [if ?b then _ else _] => now destruct b end. }
  split.
  - intros u ch Hto Hch. apply lookupChannel_some in Hch.
    destruct Hch as (p & Hp & <-).
    destruct (online_bound Hcons u Hp) as [Hconn _].
    rewrite Hto. cbn [onlineUsers_get]. rewrite Hp.
    cbn [existsb tostring_throws]. rewrite !orb_false_r.
    split; [assumption|].
    destruct (tostring_throws (f "from")); cbn [emitted threw];
      (split; [reflexivity|]);
      rewrite inbox_cons, inbox_nil; cbn [target event payload];
      now rewrite (received_own_room s (socketId p) Hcons Hconn).
  - intros Hnone. rewrite Hnone. cbn [existsb]. rewrite orb_false_r.
    destruct (tostring_throws (f "to")); cbn [emitted threw];
      repeat split.
Qed.

Lemma X29_callUser_delivers_then_logs_witness :
  reachable lobby /\
  inbox (sockets lobby) (emitted (on_callUser lobby "a" offer)) "b"
  = [("incoming-call", JObj [("from", JStr "u1"); ("signal", JStr "sdp")])].
Proof.
  split; [exact reachable_lobby|].
  pose proof (X29_callUser_delivers_then_logs lobby "a" offer
                (fun k => match assoc k [("to", JStr "u2"); ("from", JStr "u1");
                                         ("signal", JStr "sdp")] with
                          | Some v => v
                          | None => JUndefined
                          end)
                reachable_lobby eq_refl) as H.
  destruct H as (_ & H & _).
  apply (H "u2" "b"); reflexivity.
Defined.

(** C7: an [ice-candidate] event [{to, candidate}] from a channel [c]
    whose userId in the reverse map is [U], for a registered user [to]
    with current channel [ch]: one event is emitted, and [ch] receives
    exactly one [ice-candidate {from: U, candidate}]. *)
Theorem C7_iceCandidate_carries_sender_userId s c U data f u ch :
  reachable s -> destructure data = Returned f ->
  JsMap.get c (userSockets s) = Some U ->
  f "to" = JStr u -> lookupChannel s u = Some ch ->
  threw (on_iceCandidate s c data) = false /\
  List.length (emitted (on_iceCandidate s c data)) = 1 /\
  inbox (sockets s) (emitted (on_iceCandidate s c data)) ch
  = [("ice-candidate", JObj [("from", JStr U); ("candidate", f "candidate")])].
Proof.
  intros Hs Hd HU Hto Hch. apply lookupChannel_some in Hch.
  destruct Hch as (p & Hp & <-).
  pose proof (reachable_consistent s Hs) as Hcons.
  unfold on_iceCandidate, bind, userSockets_get.
  rewrite Hd, Hto, HU. cbn [onlineUsers_get]. rewrite Hp.
  cbn [threw emitted]. repeat split.
  rewrite inbox_cons, inbox_nil. cbn [target event payload].
  destruct (online_bound Hcons u Hp) as [Hconn _].
  now rewrite (received_own_room s (socketId p) Hcons Hconn).
Qed.

Lemma C7_iceCandidate_carries_sender_userId_witness :
  reachable lobby /\ JsMap.get "a" (userSockets lobby) = Some "u1" /\
  lookupChannel lobby "u2" = Some "b" /\
  inbox (sockets lobby) (emitted (on_iceCandidate lobby "a" candidate_for_u2)) "b"
  = [("ice-candidate", JObj [("from", JStr "u1"); ("candidate", JStr "ice")])].
Proof.
  split; [exact reachable_lobby|]. split; [reflexivity|]. split; [reflexivity|].
  apply (C7_iceCandidate_carries_sender_userId lobby "a" "u1" candidate_for_u2
           (fun k => match assoc k [("to", JStr "u2"); ("candidate", JStr "ice")]
                     with
                     | Some v => v
                     | None => JUndefined
                     end)
           "u2" "b" reachable_lobby eq_refl eq_refl eq_refl eq_refl).
Defined.

(** C10: an [ice-candidate] event [{to, candidate}] from a channel [c]
    that has no userId in the reverse map, for a registered user [to]
    with current channel [ch], is forwarded all the same: the handler
    returns normally, emits one event, and [ch] receives exactly one
    [ice-candidate] whose [from] is [undefined]. *)
Theorem C10_iceCandidate_from_unregistered_sender s c data f u ch :
  reachable s -> destructure data = Returned f ->
  JsMap.get c (userSockets s) = None ->
  f "to" = JStr u -> lookupChannel s u = Some ch ->
  threw (on_iceCandidate s c data) = false /\
  List.length (emitted (on_iceCandidate s c data)) = 1 /\
  inbox (sockets s) (emitted (on_iceCandidate s c data)) ch
  = [("ice-candidate", JObj [("from", JUndefined); ("candidate", f "candidate")])].
Proof.
  intros Hs Hd HU Hto Hch. apply lookupChannel_some in Hch.
  destruct Hch as (p & Hp & <-).
  pose proof (reachable_consistent s Hs) as Hcons.
  unfold on_iceCandidate, bind, userSockets_get.
  rewrite Hd, Hto, HU. cbn [onlineUsers_get]. rewrite Hp.
  cbn [threw emitted]. repeat split.
  rewrite inbox_cons, inbox_nil. cbn [target event payload].
  destruct (online_bound Hcons u Hp) as [Hconn _].
  now rewrite (received_own_room s (socketId p) Hcons Hconn).
Qed.

Lemma C10_iceCandidate_from_unregistered_sender_witness :
  reachable lobby /\ JsMap.get "x" (userSockets lobby) = None /\
  lookupChannel lobby "u2" = Some "b" /\
  inbox (sockets lobby) (emitted (on_iceCandidate lobby "x" candidate_for_u2)) "b"
  = [("ice-candidate", JObj [("from", JUndefined); ("candidate", JStr "ice")])].
Proof.
  split; [exact reachable_lobby|]. split; [reflexivity|]. split; [reflexivity|].
  apply (C10_iceCandidate_from_unregistered_sender lobby "x" candidate_for_u2
           (fun k => match assoc k [("to", JStr "u2"); ("candidate", JStr "ice")]
                     with
                     | Some v => v
                     | None => JUndefined
                     end)
           "u2" "b" reachable_lobby eq_refl eq_refl eq_refl eq_refl).
Defined.

(** * Further properties of the registry *)

Lemma keys_set_nodup (V : Type) k (v : V) m :
  NoDup (JsMap.keys m) -> NoDup (JsMap.keys (JsMap.set k v m)).
Proof.
  intros Hnd. destruct (JsMap.get k m) as [v0|] eqn:Hget.
  - now rewrite (JsMapFacts.keys_set_present V k v v0 m Hget).
  - rewrite (JsMapFacts.keys_set_fresh V k v m Hget).
    apply NoDup_snoc; [assumption|]. now apply JsMapFacts.get_none_keys.
Qed.

Lemma keys_delete_nodup (V : Type) k (m : JsMap.t V) :
  NoDup (JsMap.keys m) -> NoDup (JsMap.keys (JsMap.delete k m)).
Proof.
  intros Hnd. rewrite JsMapFacts.keys_delete. now apply NoDup_filter.
Qed.

Lemma onlineUsers_after_connect s c userId :
  onlineUsers (step s (Connect c userId)) = onlineUsers s \/
  exists u, userId = JStr u /\ u <> "" /\
            onlineUsers (step s (Connect c userId))
            = JsMap.set u (mkPresence c "online") (onlineUsers s).
Proof.
  cbn [step].
  destruct userId as [| | | |u| |];
    try (rewrite connection_anonymous by (intros; discriminate); now left).
  destruct (String.eqb_spec u "") as [->|Hne].
  - rewrite connection_anonymous by (intros ? [= <-]; reflexivity). now left.
  - right. exists u. rewrite (connection_registers _ c u Hne). tauto.
Qed.

Lemma onlineUsers_after_disconnect s c :
  (onlineUsers (step s (Disconnect c)) = onlineUsers s /\
   forall u, JsMap.get c (userSockets s) = Some u -> u = "") \/
  exists u, JsMap.get c (userSockets s) = Some u /\ u <> "" /\
            onlineUsers (step s (Disconnect c))
            = JsMap.delete u (onlineUsers s).
Proof.
  destruct (JsMap.get c (userSockets s)) as [u|] eqn:Hget.
  - destruct (String.eqb_spec u "") as [->|Hne].
    + left. split; [|now intros ? [= <-]].
      cbn [step]. unfold on_disconnecting, handleUserDisconnection,
        userSockets_get. now rewrite Hget.
    + right. exists u. repeat split; try assumption.
      now apply (registry_after_disconnect s c u).
  - left. split; [|discriminate]. cbn [step]. unfold on_disconnecting.
    now rewrite (disconnection_unregistered s c Hget).
Qed.

Lemma roster_nodup s : reachable s -> NoDup (snapshotUserIds s).
Proof.
  unfold snapshotUserIds. induction 1 as [|s c userId Hs IH Hc|s c ev Hs IH Hc|s c Hs IH Hc].
  - constructor.
  - destruct (onlineUsers_after_connect s c userId) as [->|(u & _ & _ & ->)];
      [assumption|now apply keys_set_nodup].
  - cbn [step]. now rewrite (proj1 (handle_registry s c ev)).
  - destruct (onlineUsers_after_disconnect s c) as [[-> _]|(u & _ & _ & ->)];
      [assumption|now apply keys_delete_nodup].
Qed.

Lemma get_of_entry (V : Type) k (v : V) m :
  NoDup (JsMap.keys m) -> In (k, v) m -> JsMap.get k m = Some v.
Proof.
  induction m as [|[k' v'] m IH]; simpl; [tauto|].
  intros Hnd [E|HIn]; inversion Hnd as [|? ? Hnot Hnd']; subst.
  - injection E as -> ->. now rewrite String.eqb_refl.
  - destruct (String.eqb_spec k k') as [->|_]; [|now apply IH].
    exfalso. apply Hnot. change k' with (fst (k', v)). now apply in_map.
Qed.

Lemma NoDup_map_through (A B C : Type) (f : A -> B) (g : A -> C) (l : list A) :
  (forall x y, In x l -> In y l -> f x = f y -> g x = g y) ->
  NoDup (map g l) -> NoDup (map f l).
Proof.
  induction l as [|x l IH]; simpl; intros Hinj Hnd; [constructor|].
  inversion Hnd as [|? ? Hnot Hnd']; subst. constructor.
  - intros HIn. apply in_map_iff in HIn. destruct HIn as (y & E & Hy).
    apply Hnot. rewrite (Hinj x y); [now apply in_map|now left|now right|].
    now symmetry.
  - apply IH; [|assumption]. intros a b Ha Hb. apply Hinj; now right.
Qed.

(** X1: on every reachable state, each user of the roster has a
    presence entry whose channel is connected and is bound back to that
    user, and the user is a non-empty string. *)
Theorem X1_roster_users_have_live_channels s u :
  reachable s -> In u (snapshotUserIds s) ->
  u <> "" /\
  exists ch, lookupChannel s u = Some ch /\ connected s ch /\
             userSockets_get s ch = JStr u.
Proof.
  intros Hs HIn. pose proof (reachable_consistent s Hs) as Hcons.
  destruct (JsMap.get u (onlineUsers s)) as [p|] eqn:Hget.
  - destruct (online_bound Hcons u Hget) as [Hconn Hback].
    destruct (bound_connected Hcons _ Hback) as [_ Hne].
    split; [assumption|]. exists (socketId p). unfold lookupChannel, userSockets_get.
    rewrite Hget, Hback. repeat split; assumption.
  - apply JsMapFacts.get_none_keys in Hget. contradiction.
Qed.

Lemma X1_roster_users_have_live_channels_witness :
  reachable lobby /\ In "u2" (snapshotUserIds lobby) /\ "u2" <> "" /\
  exists ch, lookupChannel lobby "u2" = Some ch /\ connected lobby ch /\
             userSockets_get lobby ch = JStr "u2".
Proof.
  assert (HIn : In "u2" (snapshotUserIds lobby)) by (vm_compute; tauto).
  split; [exact reachable_lobby|]. split; [exact HIn|].
  exact (X1_roster_users_have_live_channels lobby "u2" reachable_lobby HIn).
Defined.

(** X2: on every reachable state, a channel that has a userId in
    [userSockets] is a connected channel; so once a channel has
    disconnected, no binding of it is left behind. *)
Theorem X2_no_binding_outlives_its_channel s c :
  reachable s -> connected s c ->
  JsMap.get c (userSockets (step s (Disconnect c))) = None /\
  ~ connected (step s (Disconnect c)) c /\
  forall c' u, JsMap.get c' (userSockets (step s (Disconnect c))) = Some u ->
               connected (step s (Disconnect c)) c'.
Proof.
  intros Hs Hc.
  pose proof (reachable_consistent _ (@reach_disconnect s c Hs Hc)) as Hcons.
  assert (Hgone : ~ connected (step s (Disconnect c)) c).
  { cbn [step]. intros H. apply connected_after_close in H. tauto. }
  repeat split.
  - destruct (JsMap.get c (userSockets (step s (Disconnect c)))) as [u|] eqn:E;
      [|reflexivity].
    destruct (bound_connected Hcons _ E) as [H _]. contradiction.
  - assumption.
  - intros c' u Hget. now destruct (bound_connected Hcons _ Hget).
Qed.

Lemma X2_no_binding_outlives_its_channel_witness :
  reachable lobby /\ connected lobby "a" /\
  JsMap.get "a" (userSockets (step lobby (Disconnect "a"))) = None.
Proof.
  assert (Hc : connected lobby "a") by (vm_compute; tauto).
  split; [exact reachable_lobby|]. split; [exact Hc|].
  apply (X2_no_binding_outlives_its_channel lobby "a" reachable_lobby Hc).
Defined.

(** X3: on every reachable state the roster lists no user twice, and
    there are never more online users ([onlineUsers.size], which the
    health endpoint reports) than connected sockets. *)
Theorem X3_roster_is_duplicate_free_and_bounded s :
  reachable s ->
  NoDup (snapshotUserIds s) /\
  JsMap.size (onlineUsers s) <= List.length (sockets s).
Proof.
  intros Hs. pose proof (roster_nodup s Hs) as Hnd.
  pose proof (reachable_consistent s Hs) as Hcons.
  split; [assumption|]. unfold JsMap.size.
  rewrite <- (length_map (fun e => socketId (snd e)) (onlineUsers s)).
  rewrite <- (length_map id (sockets s)).
  apply NoDup_incl_length.
  - apply NoDup_map_through with (g := @fst string Presence); [|exact Hnd].
    intros [u p] [u' p'] HIn HIn' E. cbn [fst snd] in *.
    pose proof (get_of_entry _ u p _ Hnd HIn) as G.
    pose proof (get_of_entry _ u' p' _ Hnd HIn') as G'.
    destruct (online_bound Hcons u G) as [_ B].
    destruct (online_bound Hcons u' G') as [_ B'].
    rewrite E in B. congruence.
  - intros ch HIn. apply in_map_iff in HIn. destruct HIn as ([u p] & <- & HIn).
    pose proof (get_of_entry _ u p _ Hnd HIn) as G.
    now destruct (online_bound Hcons u G).
Qed.

Lemma X3_roster_is_duplicate_free_and_bounded_witness :
  reachable two_tabs /\
  JsMap.size (onlineUsers two_tabs) <= List.length (sockets two_tabs).
Proof.
  split; [exact reachable_two_tabs|].
  apply (X3_roster_is_duplicate_free_and_bounded two_tabs reachable_two_tabs).
Defined.

(** ** Connecting and disconnecting, composed *)

Lemma delete_set_fresh (V : Type) k (v : V) m :
  JsMap.get k m = None -> JsMap.delete k (JsMap.set k v m) = m.
Proof.
  induction m as [|[k' v'] m IH]; simpl.
  - now rewrite String.eqb_refl.
  - destruct (k =? k') eqn:E; [discriminate|]. intros H. simpl.
    rewrite E. simpl. f_equal. now apply IH.
Qed.

Lemma close_after_open (socks : list Socket) c rs :
  ~ In c (map id socks) ->
  filter (fun k => negb (id k =? c)) (socks ++ [mkSocket c rs]) = socks.
Proof.
  intros Hfresh. rewrite filter_app. simpl. rewrite String.eqb_refl. simpl.
  rewrite app_nil_r. induction socks as [|k socks IH]; simpl; [reflexivity|].
  simpl in Hfresh. destruct (String.eqb_spec (id k) c) as [E|_].
  - exfalso. apply Hfresh. now left.
  - simpl. f_equal. apply IH. tauto.
Qed.

Lemma unbound_when_not_connected s c :
  reachable s -> ~ connected s c -> JsMap.get c (userSockets s) = None.
Proof.
  intros Hs Hc. destruct (JsMap.get c (userSockets s)) as [u|] eqn:E;
    [|reflexivity].
  destruct (bound_connected (reachable_consistent s Hs) _ E). contradiction.
Qed.

Lemma run_of_clients_registry s (evs : list (string * ClientEvent)) :
  onlineUsers (run s (map (fun ce => Client (fst ce) (snd ce)) evs))
  = onlineUsers s /\
  userSockets (run s (map (fun ce => Client (fst ce) (snd ce)) evs))
  = userSockets s.
Proof.
  unfold run. revert s. induction evs as [|[c ev] evs IH]; intros s.
  - split; reflexivity.
  - cbn [map fold_left fst snd step].
    destruct (IH (state_after s (handle s c ev))) as [E1 E2].
    destruct (handle_registry s c ev) as [F1 F2].
    rewrite E1, E2, F1, F2. split; reflexivity.
Qed.

(** X4: a fresh channel that connects as a user who was not online and
    then disconnects, with nothing in between, leaves the server exactly
    in the state it was in: both maps and the set of sockets. *)
Theorem X4_connect_then_disconnect_restores_state s c u :
  reachable s -> ~ connected s c -> u <> "" -> isOnline s u = false ->
  step (step s (Connect c (JStr u))) (Disconnect c) = s.
Proof.
  intros Hs Hc Hu Hoff.
  assert (Hon : JsMap.get u (onlineUsers s) = None).
  { unfold isOnline in Hoff. now destruct (JsMap.get u (onlineUsers s)). }
  pose proof (unbound_when_not_connected s c Hs Hc) as Hus.
  cbn [step]. rewrite (connection_registers (open_socket s c) c u Hu).
  cbn [fst]. unfold on_disconnecting.
  rewrite (disconnection_registered _ c u); cbn [userSockets];
    [|apply JsMapFacts.get_set_same|assumption].
  cbn [fst]. unfold close_socket, open_socket.
  cbn [onlineUsers userSockets sockets].
  rewrite (delete_set_fresh _ u _ _ Hon), (delete_set_fresh _ c _ _ Hus).
  rewrite (close_after_open (sockets s) c [JStr c] Hc). now destruct s.
Qed.

Lemma X4_connect_then_disconnect_restores_state_witness :
  reachable lobby /\ ~ connected lobby "n" /\ "u3" <> "" /\
  isOnline lobby "u3" = false /\
  step (step lobby (Connect "n" (JStr "u3"))) (Disconnect "n") = lobby.
Proof.
  assert (Hc : ~ connected lobby "n").
  { vm_compute. intros [H|[H|[H|[]]]]; discriminate. }
  assert (Hu : "u3" <> "") by discriminate.
  split; [exact reachable_lobby|]. split; [exact Hc|]. split; [exact Hu|].
  split; [reflexivity|].
  exact (X4_connect_then_disconnect_restores_state lobby "n" "u3"
           reachable_lobby Hc Hu eq_refl).
Defined.

(** X5: a channel that connects without a usable userId (absent, empty,
    or not a string, such as the array of a repeated query parameter) is
    never registered: its connection emits nothing, whatever the clients
    send while it is connected the two maps stay as they were before it
    came, and its disconnect emits [user-left-room] notices only, no
    [userOffline] and no roster. *)
Theorem X5_anonymous_channel_never_touches_registry s c userId evs :
  reachable s -> ~ connected s c ->
  (forall u, userId = JStr u -> u = "") ->
  snd (on_connection (open_socket s c) c userId) = [] /\
  Forall (fun e => event e = "user-left-room")
         (snd (on_disconnecting
                 (run (step s (Connect c userId))
                      (map (fun ce => Client (fst ce) (snd ce)) evs)) c)) /\
  onlineUsers (step (run (step s (Connect c userId))
                         (map (fun ce => Client (fst ce) (snd ce)) evs))
                    (Disconnect c))
  = onlineUsers s /\
  userSockets (step (run (step s (Connect c userId))
                         (map (fun ce => Client (fst ce) (snd ce)) evs))
                    (Disconnect c))
  = userSockets s.
Proof.
  intros Hs Hc Hanon.
  pose proof (unbound_when_not_connected s c Hs Hc) as Hus.
  pose proof (connection_anonymous (open_socket s c) c userId Hanon) as Econn.
  split; [now rewrite Econn|].
  assert (E1 : step s (Connect c userId) = open_socket s c).
  { cbn [step]. now rewrite Econn. }
  rewrite E1.
  destruct (run_of_clients_registry (open_socket s c) evs) as [Eon Eus].
  set (s2 := run (open_socket s c)
                 (map (fun ce => Client (fst ce) (snd ce)) evs)) in *.
  assert (Hnone : JsMap.get c (userSockets s2) = None).
  { rewrite Eus. exact Hus. }
  cbn [step]. unfold on_disconnecting.
  rewrite (disconnection_unregistered s2 c Hnone). cbn [fst snd].
  split; [|split; [exact Eon|exact Eus]].
  unfold left_room_notices. apply Forall_forall. intros e HIn.
  apply in_map_iff in HIn. now destruct HIn as (r & <- & _).
Qed.

Lemma X5_anonymous_channel_never_touches_registry_witness :
  reachable lobby /\ ~ connected lobby "n" /\
  onlineUsers
    (step (run (step lobby (Connect "n" repeated_userId))
               (map (fun ce => Client (fst ce) (snd ce))
                    [("n", JoinConversation (JStr "r1")); ("a", SendMessage hello)]))
          (Disconnect "n"))
  = onlineUsers lobby.
Proof.
  assert (Hc : ~ connected lobby "n").
  { vm_compute. intros [H|[H|[H|[]]]]; discriminate. }
  split; [exact reachable_lobby|]. split; [exact Hc|].
  apply (X5_anonymous_channel_never_touches_registry lobby "n" repeated_userId
           [("n", JoinConversation (JStr "r1")); ("a", SendMessage hello)]
           reachable_lobby Hc).
  intros u H. discriminate H.
Defined.

(** X6: connecting or disconnecting a channel changes the presence of
    one user at most: the connection of a channel leaves the entry of
    every user other than the one it names as it was, and the disconnect
    of a channel leaves the entry of every user other than the one the
    channel is bound to as it was. *)
Theorem X6_presence_changes_are_local s c userId u' :
  userId <> JStr u' -> userSockets_get s c <> JStr u' ->
  lookupChannel (step s (Connect c userId)) u' = lookupChannel s u' /\
  lookupChannel (step s (Disconnect c)) u' = lookupChannel s u'.
Proof.
  intros Hconn Hdisc. unfold lookupChannel. split.
  - destruct (onlineUsers_after_connect s c userId) as [->|(u & -> & _ & ->)];
      [reflexivity|].
    rewrite JsMapFacts.get_set_other; [reflexivity|]. congruence.
  - destruct (onlineUsers_after_disconnect s c) as [[-> _]|(u & Hget & _ & ->)];
      [reflexivity|].
    rewrite JsMapFacts.get_delete_other; [reflexivity|].
    unfold userSockets_get in Hdisc. rewrite Hget in Hdisc. congruence.
Qed.

Lemma X6_presence_changes_are_local_witness :
  JStr "u3" <> JStr "u2" /\ userSockets_get lobby "a" <> JStr "u2" /\
  lookupChannel (step lobby (Connect "n" (JStr "u3"))) "u2" = Some "b" /\
  lookupChannel (step lobby (Disconnect "a")) "u2" = Some "b".
Proof.
  assert (H1 : JStr "u3" <> JStr "u2") by discriminate.
  assert (H2 : userSockets_get lobby "a" <> JStr "u2")
    by (vm_compute; discriminate).
  split; [exact H1|]. split; [exact H2|].
  split.
  - apply (X6_presence_changes_are_local lobby "n" (JStr "u3") "u2" H1).
    vm_compute. discriminate.
  - apply (X6_presence_changes_are_local lobby "a" (JStr "u3") "u2" H1 H2).
Defined.

(** X7: last writer wins.  When a channel [c] connects as a non-empty
    user [u], [lookupChannel u] is [c] from then on, also when [u] was
    online on another channel; in that case [u] keeps its place in the
    roster, and every other channel keeps the userId it was bound to. *)
Theorem X7_reconnect_takes_over_and_keeps_roster_place s c u :
  u <> "" ->
  lookupChannel (step s (Connect c (JStr u))) u = Some c /\
  (isOnline s u = true ->
   snapshotUserIds (step s (Connect c (JStr u))) = snapshotUserIds s) /\
  (forall c0, c0 <> c ->
     userSockets_get (step s (Connect c (JStr u))) c0 = userSockets_get s c0).
Proof.
  intros Hu. cbn [step]. rewrite (connection_registers (open_socket s c) c u Hu).
  cbn [fst]. unfold lookupChannel, snapshotUserIds, isOnline, userSockets_get.
  cbn [onlineUsers userSockets open_socket]. split; [|split].
  - now rewrite JsMapFacts.get_set_same.
  - destruct (JsMap.get u (onlineUsers s)) as [p|] eqn:Hget; [|discriminate].
    intros _. now apply JsMapFacts.keys_set_present with (v0 := p).
  - intros c0 Hne. rewrite JsMapFacts.get_set_other; [reflexivity|congruence].
Qed.

Lemma X7_reconnect_takes_over_and_keeps_roster_place_witness :
  "u1" <> "" /\
  lookupChannel (step lobby (Connect "n" (JStr "u1"))) "u1" = Some "n" /\
  snapshotUserIds (step lobby (Connect "n" (JStr "u1"))) = ["u1"; "u2"].
Proof.
  assert (Hu : "u1" <> "") by discriminate.
  pose proof (X7_reconnect_takes_over_and_keeps_roster_place lobby "n" "u1" Hu)
    as (H1 & H2 & _).
  split; [exact Hu|]. split; [exact H1|]. exact (H2 eq_refl).
Defined.

(** * Further properties of the room relay *)

Lemma inbox_one socks e c :
  inbox socks [e] c
  = if received socks (target e) c then [(event e, payload e)] else [].
Proof. rewrite inbox_cons, inbox_nil. apply app_nil_r. Qed.

Lemma received_room_from_self socks c room :
  received socks (RoomFrom c room) c = false.
Proof.
  apply received_false. rewrite in_recipients.
  intros (k & _ & Hid & Hr). cbn [reaches] in Hr.
  rewrite Hid, String.eqb_refl, andb_false_r in Hr. discriminate.
Qed.

Lemma add_room_member r rs :
  existsb (same_room (JStr r)) (add_rooms [JStr r] rs) = true.
Proof.
  unfold add_rooms. cbn [fold_left].
  destruct (existsb (same_room (JStr r)) rs) eqn:E; [assumption|].
  rewrite existsb_app. cbn. now rewrite String.eqb_refl, orb_true_r.
Qed.

Lemma add_room_again r rs :
  add_rooms [JStr r] (add_rooms [JStr r] rs) = add_rooms [JStr r] rs.
Proof.
  pose proof (add_room_member r rs) as H.
  unfold add_rooms at 1. cbn [fold_left]. now rewrite H.
Qed.

Lemma add_rooms_keeps_member new rs r :
  existsb (same_room r) rs = true ->
  existsb (same_room r) (add_rooms new rs) = true.
Proof.
  rewrite !existsb_exists. intros (x & HIn & E). exists x.
  split; [now apply add_rooms_keeps|assumption].
Qed.

Lemma find_socket_after_join s c room c' :
  find_socket (socket_join s c room) c'
  = option_map (fun k => if id k =? c
                         then mkSocket (id k) (add_rooms (room_list room) (rooms k))
                         else k)
               (find_socket s c').
Proof.
  unfold find_socket, socket_join. cbn [sockets].
  induction (sockets s) as [|k l IH]; [reflexivity|]. cbn [map find].
  assert (E : id (if id k =? c
                  then mkSocket (id k) (add_rooms (room_list room) (rooms k))
                  else k) = id k) by now destruct (id k =? c).
  rewrite E. destruct (id k =? c'); [reflexivity|exact IH].
Qed.

Lemma joined_after_handle s c ev c' r :
  joined s c' r = true -> joined (state_after s (handle s c ev)) c' r = true.
Proof.
  unfold joined, rooms_of, find_socket.
  destruct (handle_sockets s c ev) as [->|(room & _ & ->)]; [tauto|].
  fold (find_socket (socket_join s c room) c'). fold (find_socket s c').
  rewrite find_socket_after_join.
  destruct (find_socket s c') as [k|]; cbn [option_map]; [|discriminate].
  destruct (id k =? c); [|tauto]. cbn [rooms]. apply add_rooms_keeps_member.
Qed.

(** X8: no client event takes a socket out of a room.  Whatever the
    clients send (this server has no handler that leaves a room), a
    socket that is in a room is still in it afterwards; membership ends
    with the connection only. *)
Theorem X8_client_events_never_leave_a_room s evs c' r :
  joined s c' r = true -> joined (run s (clients evs)) c' r = true.
Proof.
  unfold run, clients. revert s. induction evs as [|[c ev] evs IH]; intros s H.
  - exact H.
  - cbn [map fold_left fst snd step]. apply IH. now apply joined_after_handle.
Qed.

Lemma X8_client_events_never_leave_a_room_witness :
  joined lobby "b" (JStr "r1") = true /\
  joined (run lobby (clients [("b", JoinConversation (JStr "r2"));
                              ("b", JoinConversation JNull);
                              ("a", SendMessage hello)]))
         "b" (JStr "r1") = true.
Proof.
  split; [reflexivity|].
  apply (X8_client_events_never_leave_a_room lobby
           [("b", JoinConversation (JStr "r2"));
            ("b", JoinConversation JNull);
            ("a", SendMessage hello)] "b" (JStr "r1")).
  reflexivity.
Defined.

Lemma join_makes_member s c r :
  connected s c ->
  exists k, In k (sockets (socket_join s c (JStr r))) /\ id k = c /\
            in_room (JStr r) k = true.
Proof.
  unfold connected. rewrite in_map_iff. intros (k & Hid & HIn).
  exists (mkSocket (id k) (add_rooms [JStr r] (rooms k))). repeat split.
  - cbn [socket_join sockets]. apply in_map_iff. exists k.
    split; [|assumption]. rewrite Hid, String.eqb_refl. reflexivity.
  - exact Hid.
  - unfold in_room. cbn [rooms]. apply add_room_member.
Qed.

(** X9: joining and then receiving.  Once a connected channel [B] has
    sent [joinConversation r] for a non-empty string [r], a [sendMessage]
    for conversation [r] from any other channel is delivered to [B],
    once. *)
Theorem X9_join_then_message_is_delivered s A B r message :
  reachable s -> connected s B -> A <> B -> r <> "" ->
  get_property message "conversationId" = Some (JStr r) ->
  inbox (sockets (step s (Client B (JoinConversation (JStr r)))))
        (emitted (on_sendMessage (step s (Client B (JoinConversation (JStr r))))
                                 A message))
        B
  = [("newMessage", message)].
Proof.
  intros Hs HB Hne Hr Hget.
  pose proof (reachable_consistent _ (@reach_client s B (JoinConversation (JStr r))
                                        Hs HB)) as Hcons.
  assert (Ht : truthy (JStr r) = true).
  { cbn. now destruct (String.eqb_spec r ""). }
  rewrite (sendMessage_relays _ A message (JStr r) Hget Ht).
  cbn [emitted]. rewrite inbox_one. cbn [target event payload].
  assert (Estep : sockets (step s (Client B (JoinConversation (JStr r))))
                  = sockets (socket_join s B (JStr r))).
  { cbn [step handle]. unfold on_joinConversation. now rewrite Ht. }
  destruct (join_makes_member s B r HB) as (k & HIn & Hid & Hroom).
  rewrite <- Estep in HIn.
  pose proof (received_is_reaches _ (RoomFrom A (JStr r)) k
                (ids_unique Hcons) HIn) as R.
  rewrite Hid in R. rewrite R.
  cbn [reaches]. rewrite addressed_one, Hroom, Hid.
  destruct (String.eqb_spec B A); [congruence|reflexivity].
Qed.

Lemma X9_join_then_message_is_delivered_witness :
  reachable lobby /\ connected lobby "x" /\ "a" <> "x" /\ "r1" <> "" /\
  inbox (sockets (step lobby (Client "x" (JoinConversation (JStr "r1")))))
        (emitted (on_sendMessage
                    (step lobby (Client "x" (JoinConversation (JStr "r1"))))
                    "a" hello))
        "x"
  = [("newMessage", hello)].
Proof.
  assert (Hc : connected lobby "x") by (vm_compute; tauto).
  assert (Hne : "a" <> "x") by discriminate.
  assert (Hr : "r1" <> "") by discriminate.
  split; [exact reachable_lobby|]. split; [exact Hc|]. split; [exact Hne|].
  split; [exact Hr|].
  exact (X9_join_then_message_is_delivered lobby "a" "x" "r1" hello
           reachable_lobby Hc Hne Hr eq_refl).
Defined.

(** X10: joining a conversation named by a string is idempotent: a second
    [joinConversation] for the same room from the same channel leaves
    the state, and so the channel's rooms, exactly as the first one left
    them. *)
Theorem X10_joinConversation_is_idempotent s c r :
  step (step s (Client c (JoinConversation (JStr r))))
       (Client c (JoinConversation (JStr r)))
  = step s (Client c (JoinConversation (JStr r))).
Proof.
  cbn [step handle]. unfold on_joinConversation, logged.
  cbn [existsb tostring_throws orb].
  destruct (truthy (JStr r)); cbn [negb state_after]; [|reflexivity].
  unfold socket_join. cbn [onlineUsers userSockets sockets]. f_equal.
  rewrite map_map. apply map_ext. intros k.
  destruct (id k =? c) eqn:E; cbn [id rooms]; rewrite E; [|reflexivity].
  cbn [room_list]. now rewrite add_room_again.
Qed.

Lemma in_inbox socks out c name body :
  In (name, body) (inbox socks out c) ->
  exists e, In e out /\ received socks (target e) c = true /\
            event e = name /\ payload e = body.
Proof.
  unfold inbox. rewrite in_map_iff. intros (e & E & HIn).
  apply filter_In in HIn. exists e. injection E as E1 E2. tauto.
Qed.

(** Every emission of a handler is either addressed to a room, the
    sender left out, or is not a room event. *)
Lemma handle_emission_shape s c ev e :
  In e (emitted (handle s c ev)) ->
  (exists room, target e = RoomFrom c room) \/ room_event (event e) = false.
Proof.
  destruct ev; cbn [handle];
    unfold on_joinConversation, on_sendMessage, on_messageRead, on_typing,
      on_requestOnlineUsers, on_callUser, on_answerMade, logged,
      on_iceCandidate, broadcastOnlineUsers, bind;
    handler_cases; cbn [emitted In]; intros H; try contradiction;
    destruct H as [<-|[]]; cbn [target event];
    solve [right; reflexivity | left; eexists; reflexivity].
Qed.

(** X11: no channel hears its own room events.  Whatever event a channel
    sends and whatever its payload, what comes back to that channel is
    never a [newMessage], [messageRead], [startTyping] or [stopTyping]. *)
Theorem X11_room_events_never_come_back_to_sender s c ev name body :
  In (name, body) (inbox (sockets s) (emitted (handle s c ev)) c) ->
  room_event name = false.
Proof.
  intros H. apply in_inbox in H. destruct H as (e & HIn & Hrecv & <- & _).
  destruct (handle_emission_shape s c ev e HIn) as [(room & E)|E];
    [|assumption].
  rewrite E, received_room_from_self in Hrecv. discriminate.
Qed.

Lemma X11_room_events_never_come_back_to_sender_witness :
  In ("error", JObj [("message", JStr "Message must have a conversationId.")])
     (inbox (sockets lobby) (emitted (handle lobby "a" (SendMessage untitled))) "a")
  /\ room_event "error" = false.
Proof.
  assert (H : In ("error",
                  JObj [("message", JStr "Message must have a conversationId.")])
                 (inbox (sockets lobby)
                        (emitted (handle lobby "a" (SendMessage untitled))) "a"))
    by (vm_compute; tauto).
  split; [exact H|].
  exact (X11_room_events_never_come_back_to_sender lobby "a"
           (SendMessage untitled) "error" _ H).
Defined.

Lemma truthy_nonempty r : r <> "" -> truthy (JStr r) = true.
Proof. intros H. cbn. now destruct (String.eqb_spec r ""). Qed.

Lemma room_delivery s c r name body k :
  reachable s -> In k (sockets s) ->
  inbox (sockets s) [mkEmission (RoomFrom c (JStr r)) name body] (id k)
  = if in_room (JStr r) k && negb (id k =? c) then [(name, body)] else [].
Proof.
  intros Hs HIn. rewrite inbox_one. cbn [target event payload].
  rewrite (received_is_reaches (sockets s) _ k
             (ids_unique (reachable_consistent s Hs)) HIn).
  cbn [reaches]. now rewrite addressed_one.
Qed.

(** X12: [startTyping] and [stopTyping] with a non-empty string
    conversationId and a truthy userId are relayed under their own name
    to exactly the connected channels that are in that room and are not
    the sender.  The payload is rebuilt from the two fields alone, so
    anything else the client put into it is dropped, and the userId is
    the one the client supplied, whatever user the channel registered
    as. *)
Theorem X12_typing_reaches_room_members_except_sender s c data f r :
  reachable s -> destructure data = Returned f ->
  f "conversationId" = JStr r -> r <> "" -> truthy (f "userId") = true ->
  forall k, In k (sockets s) ->
    inbox (sockets s) (emitted (handle s c (StartTyping data))) (id k)
    = (if in_room (JStr r) k && negb (id k =? c)
       then [("startTyping",
              JObj [("conversationId", JStr r); ("userId", f "userId")])]
       else []) /\
    inbox (sockets s) (emitted (handle s c (StopTyping data))) (id k)
    = (if in_room (JStr r) k && negb (id k =? c)
       then [("stopTyping",
              JObj [("conversationId", JStr r); ("userId", f "userId")])]
       else []).
Proof.
  intros Hs Hd Hconv Hr Hu k HIn. cbn [handle]. unfold on_typing, bind.
  rewrite Hd, Hconv, Hu, (truthy_nonempty r Hr). cbn [negb orb emitted].
  split; now rewrite room_delivery by assumption.
Qed.

Lemma X12_typing_reaches_room_members_except_sender_witness :
  reachable lobby /\ "r1" <> "" /\
  inbox (sockets lobby) (emitted (handle lobby "b" (StartTyping typing_in_r1))) "a"
  = [("startTyping", JObj [("conversationId", JStr "r1"); ("userId", JStr "u2")])].
Proof.
  assert (Hr : "r1" <> "") by discriminate.
  split; [exact reachable_lobby|]. split; [exact Hr|].
  apply (X12_typing_reaches_room_members_except_sender lobby "b" typing_in_r1
           (fun k => match assoc k [("conversationId", JStr "r1");
                                    ("userId", JStr "u2");
                                    ("draft", JStr "hel")] with
                     | Some v => v
                     | None => JUndefined
                     end)
           "r1" reachable_lobby eq_refl eq_refl Hr eq_refl
           (mkSocket "a" [JStr "a"; JStr "r1"; JStr "r2"])).
  vm_compute. tauto.
Defined.

(** X13: [messageRead] with a non-empty string conversationId and truthy
    userId and messageIds is relayed to exactly the connected channels
    that are in that room and are not the sender, with a payload rebuilt
    from these three fields. *)
Theorem X13_messageRead_reaches_room_members_except_sender s c data f r :
  reachable s -> destructure data = Returned f ->
  f "conversationId" = JStr r -> r <> "" ->
  truthy (f "userId") = true -> truthy (f "messageIds") = true ->
  forall k, In k (sockets s) ->
    inbox (sockets s) (emitted (handle s c (MessageRead data))) (id k)
    = if in_room (JStr r) k && negb (id k =? c)
      then [("messageRead",
             JObj [("conversationId", JStr r); ("userId", f "userId");
                   ("messageIds", f "messageIds")])]
      else [].
Proof.
  intros Hs Hd Hconv Hr Hu Hm k HIn. cbn [handle]. unfold on_messageRead, bind.
  rewrite Hd, Hconv, Hu, Hm, (truthy_nonempty r Hr). cbn [negb orb emitted].
  now rewrite room_delivery by assumption.
Qed.

Lemma X13_messageRead_reaches_room_members_except_sender_witness :
  reachable lobby /\ "r1" <> "" /\
  inbox (sockets lobby) (emitted (handle lobby "a" (MessageRead read_in_r1))) "b"
  = [("messageRead",
      JObj [("conversationId", JStr "r1"); ("userId", JStr "u1");
            ("messageIds", JArr [JStr "m1"; JStr "m2"])])].
Proof.
  assert (Hr : "r1" <> "") by discriminate.
  split; [exact reachable_lobby|]. split; [exact Hr|].
  apply (X13_messageRead_reaches_room_members_except_sender lobby "a" read_in_r1
           (fun k => match assoc k [("conversationId", JStr "r1");
                                    ("userId", JStr "u1");
                                    ("messageIds", JArr [JStr "m1"; JStr "m2"])]
                     with
                     | Some v => v
                     | None => JUndefined
                     end)
           "r1" reachable_lobby eq_refl eq_refl Hr eq_refl eq_refl
           (mkSocket "b" [JStr "b"; JStr "r1"])).
  vm_compute. tauto.
Defined.

(** X14: only [sendMessage] answers a malformed payload.  When a handler
    emits an [error] event, the event handled was a [sendMessage] and the
    error goes to the sender's own socket; [messageRead], [startTyping]
    and [stopTyping] with a missing or falsy field emit nothing at all. *)
Theorem X14_error_event_only_from_sendMessage s c ev e :
  In e (emitted (handle s c ev)) -> event e = "error" ->
  (exists message, ev = SendMessage message) /\ target e = ToSocket c.
Proof.
  destruct ev; cbn [handle];
    unfold on_joinConversation, on_sendMessage, on_messageRead, on_typing,
      on_requestOnlineUsers, on_callUser, on_answerMade, logged,
      on_iceCandidate, broadcastOnlineUsers, bind;
    handler_cases; cbn [emitted In]; intros H; try contradiction;
    destruct H as [<-|[]]; cbn [target event]; intros E;
    try discriminate E.
  split; [eexists; reflexivity|reflexivity].
Qed.

Lemma X14_error_event_only_from_sendMessage_witness :
  In (mkEmission (ToSocket "a") "error"
        (JObj [("message", JStr "Message must have a conversationId.")]))
     (emitted (handle lobby "a" (SendMessage untitled))) /\
  exists message, SendMessage untitled = SendMessage message.
Proof.
  assert (H : In (mkEmission (ToSocket "a") "error"
                    (JObj [("message",
                            JStr "Message must have a conversationId.")]))
                 (emitted (handle lobby "a" (SendMessage untitled))))
    by (vm_compute; tauto).
  split; [exact H|].
  exact (proj1 (X14_error_event_only_from_sendMessage lobby "a"
                  (SendMessage untitled) _ H eq_refl)).
Defined.

(** X15: [request-online-users] answers the requester alone: the
    requesting channel receives one [onlineUsersList] with the current
    roster, no other channel receives anything, and the state is
    unchanged. *)
Theorem X15_roster_on_request_goes_to_requester_only s c :
  connected s c ->
  state_after s (handle s c RequestOnlineUsers) = s /\
  inbox (sockets s) (emitted (handle s c RequestOnlineUsers)) c
  = [("onlineUsersList", JArr (map JStr (snapshotUserIds s)))] /\
  forall c', c' <> c ->
    inbox (sockets s) (emitted (handle s c RequestOnlineUsers)) c' = [].
Proof.
  intros Hc. cbn [handle]. unfold on_requestOnlineUsers, broadcastOnlineUsers.
  cbn [state_after emitted]. split; [reflexivity|]. split.
  - rewrite inbox_one. cbn [target event payload].
    now rewrite (received_to_socket_self (sockets s) c Hc).
  - intros c' Hne. rewrite inbox_one. cbn [target].
    now rewrite (received_to_socket_other (sockets s) c c' Hne).
Qed.

Lemma X15_roster_on_request_goes_to_requester_only_witness :
  connected lobby "x" /\
  inbox (sockets lobby) (emitted (handle lobby "x" RequestOnlineUsers)) "x"
  = [("onlineUsersList", JArr [JStr "u1"; JStr "u2"])].
Proof.
  assert (Hc : connected lobby "x") by (vm_compute; tauto).
  split; [exact Hc|].
  apply (X15_roster_on_request_goes_to_requester_only lobby "x" Hc).
Defined.

(** * Further properties of the signaling broker *)

(** X16: an [answer-made] event with data that can be destructured
    leaves the state as it was.  If [to] is a registered user with
    current channel [ch], that channel is connected and receives exactly
    one [call-accepted {from, signal}]; the handler then throws exactly
    when [from] has no string for the log line.  If [to] is not
    registered (or is not a string), nothing is emitted and the handler
    returns. *)
Theorem X16_answerMade_reaches_registered_caller s c data f :
  reachable s -> destructure data = Returned f ->
  state_after s (on_answerMade s c data) = s /\
  (forall u ch, f "to" = JStr u -> lookupChannel s u = Some ch ->
     connected s ch /\
     inbox (sockets s) (emitted (on_answerMade s c data)) ch
     = [("call-accepted", JObj [("from", f "from"); ("signal", f "signal")])] /\
     threw (on_answerMade s c data) = tostring_throws (f "from")) /\
  (onlineUsers_get s (f "to") = None ->
     emitted (on_answerMade s c data) = [] /\
     threw (on_answerMade s c data) = false).
Proof.
  intros Hs Hd. unfold on_answerMade, bind, logged. rewrite Hd.
  pose proof (reachable_consistent s Hs) as Hcons.
  split.
  { destruct (onlineUsers_get s (f "to")); [|reflexivity].
    match goal with |- context [if ?b then _ else _] => now destruct b end. }
  split.
  - intros u ch Hto Hch. apply lookupChannel_some in Hch.
    destruct Hch as (p & Hp & <-).
    destruct (online_bound Hcons u Hp) as [Hconn _].
    rewrite Hto. cbn [onlineUsers_get]. rewrite Hp.
    cbn [existsb tostring_throws]. rewrite !orb_false_r.
    split; [assumption|].
    destruct (tostring_throws (f "from")); cbn [emitted threw];
      (split; [|reflexivity]);
      rewrite inbox_one; cbn [target event payload];
      now rewrite (received_own_room s (socketId p) Hcons Hconn).
  - intros Hnone. rewrite Hnone. split; reflexivity.
Qed.

Lemma X16_answerMade_reaches_registered_caller_witness :
  reachable lobby /\
  inbox (sockets lobby) (emitted (on_answerMade lobby "b" answer)) "a"
  = [("call-accepted",
      JObj [("from", JStr "u2"); ("signal", JStr "sdp-answer")])].
Proof.
  split; [exact reachable_lobby|].
  pose proof (X16_answerMade_reaches_registered_caller lobby "b" answer
                (fun k => match assoc k [("to", JStr "u1"); ("from", JStr "u2");
                                         ("signal", JStr "sdp-answer")] with
                          | Some v => v
                          | None => JUndefined
                          end)
                reachable_lobby eq_refl) as H.
  destruct H as (_ & H & _).
  apply (H "u1" "a"); reflexivity.
Defined.

Lemma signal_delivery s ch name body k :
  reachable s -> In k (sockets s) ->
  inbox (sockets s) [mkEmission (IoTo (JStr ch)) name body] (id k)
  = if in_room (JStr ch) k then [(name, body)] else [].
Proof.
  intros Hs HIn. rewrite inbox_one. cbn [target event payload].
  rewrite (received_is_reaches (sockets s) _ k
             (ids_unique (reachable_consistent s Hs)) HIn).
  cbn [reaches]. now rewrite addressed_one.
Qed.

(** X17: who receives a signaling event.  The three signaling handlers
    address the room named after the callee's channel id, so a
    [call-user], [answer-made] or [ice-candidate] for a registered user
    with current channel [ch] is delivered to exactly the connected
    sockets that are in room [ch]: the callee's channel, and also any
    socket that joined a conversation of that name. *)
Theorem X17_signaling_reaches_the_room_of_the_channel_id s c data f u ch :
  reachable s -> destructure data = Returned f ->
  f "to" = JStr u -> lookupChannel s u = Some ch ->
  forall k, In k (sockets s) ->
    inbox (sockets s) (emitted (handle s c (CallUser data))) (id k)
    = (if in_room (JStr ch) k
       then [("incoming-call", JObj [("from", f "from"); ("signal", f "signal")])]
       else []) /\
    inbox (sockets s) (emitted (handle s c (AnswerMade data))) (id k)
    = (if in_room (JStr ch) k
       then [("call-accepted", JObj [("from", f "from"); ("signal", f "signal")])]
       else []) /\
    inbox (sockets s) (emitted (handle s c (IceCandidate data))) (id k)
    = (if in_room (JStr ch) k
       then [("ice-candidate",
              JObj [("from", userSockets_get s c); ("candidate", f "candidate")])]
       else []).
Proof.
  intros Hs Hd Hto Hch k HIn. apply lookupChannel_some in Hch.
  destruct Hch as (p & Hp & <-). cbn [handle].
  unfold on_callUser, on_answerMade, on_iceCandidate, bind, logged.
  rewrite Hd, Hto. cbn [onlineUsers_get]. rewrite Hp.
  destruct (existsb tostring_throws [f "from"; JStr u]); cbn [emitted];
    repeat split; now rewrite signal_delivery by assumption.
Qed.

Lemma reachable_lobby_with_listener : reachable lobby_with_listener.
Proof.
  apply (reachable_step lobby); [exact reachable_lobby|reflexivity].
Qed.

Lemma X17_signaling_reaches_the_room_of_the_channel_id_witness :
  reachable lobby_with_listener /\
  lookupChannel lobby_with_listener "u2" = Some "b" /\
  inbox (sockets lobby_with_listener)
        (emitted (handle lobby_with_listener "a" (CallUser offer))) "x"
  = [("incoming-call", JObj [("from", JStr "u1"); ("signal", JStr "sdp")])].
Proof.
  split; [exact reachable_lobby_with_listener|]. split; [reflexivity|].
  apply (X17_signaling_reaches_the_room_of_the_channel_id
           lobby_with_listener "a" offer
           (fun k => match assoc k [("to", JStr "u2"); ("from", JStr "u1");
                                    ("signal", JStr "sdp")] with
                     | Some v => v
                     | None => JUndefined
                     end)
           "u2" "b" reachable_lobby_with_listener eq_refl eq_refl eq_refl
           (mkSocket "x" [JStr "x"; JStr "b"])).
  vm_compute. tauto.
Defined.

(** * Which payloads make a handler throw *)

(** X18: when each handler throws.  [sendMessage], [messageRead],
    [startTyping], [stopTyping] and [ice-candidate] throw exactly when
    their payload is [undefined] or [null]; [request-online-users] never
    throws.  [joinConversation] throws exactly when its conversationId is
    truthy and has no string for the log line, which comes after the
    join.  [call-user] and [answer-made] throw when their payload is
    [undefined] or [null], and otherwise exactly when the value their log
    line converts has no string: [from] when [to] is registered, and for
    [call-user] [to] itself when it is not.  A handler that throws on an
    [undefined] or [null] payload has emitted nothing and changed
    nothing. *)
Theorem X18_when_a_handler_throws s c ev :
  threw (handle s c ev)
  = match ev with
    | JoinConversation v => truthy v && tostring_throws v
    | RequestOnlineUsers => false
    | SendMessage v | MessageRead v | StartTyping v | StopTyping v
    | IceCandidate v => nullish v
    | CallUser v =>
        match destructure v with
        | Returned f =>
            match onlineUsers_get s (f "to") with
            | Some _ => tostring_throws (f "from")
            | None => tostring_throws (f "to")
            end
        | _ => true
        end
    | AnswerMade v =>
        match destructure v with
        | Returned f =>
            match onlineUsers_get s (f "to") with
            | Some _ => tostring_throws (f "from")
            | None => false
            end
        | _ => true
        end
    end /\
  (forall v, destructured_payload ev = Some v -> nullish v = true ->
             emitted (handle s c ev) = [] /\ state_after s (handle s c ev) = s).
Proof.
  split.
  - destruct ev as [v|v|v|v|v| |v|v|v]; cbn [handle].
    + unfold on_joinConversation, logged. cbn [existsb].
      destruct (truthy v); cbn [negb andb]; [|reflexivity].
      rewrite orb_false_r. now destruct (tostring_throws v).
    + unfold on_sendMessage, bind. destruct v; cbn [destructure nullish];
        handler_cases; reflexivity.
    + unfold on_messageRead, bind. destruct v; cbn [destructure nullish];
        handler_cases; reflexivity.
    + unfold on_typing, bind. destruct v; cbn [destructure nullish];
        handler_cases; reflexivity.
    + unfold on_typing, bind. destruct v; cbn [destructure nullish];
        handler_cases; reflexivity.
    + reflexivity.
    + unfold on_callUser, bind, logged.
      destruct (destructure v) as [f| |]; [|reflexivity..].
      cbn [existsb]. rewrite !orb_false_r.
      destruct (onlineUsers_get s (f "to")) eqn:E.
      * destruct (f "to"); cbn [onlineUsers_get] in E; try discriminate E.
        cbn [tostring_throws]. rewrite orb_false_r.
        now destruct (tostring_throws (f "from")).
      * now destruct (tostring_throws (f "to")).
    + unfold on_answerMade, bind, logged.
      destruct (destructure v) as [f| |]; [|reflexivity..].
      cbn [existsb]. rewrite !orb_false_r.
      destruct (onlineUsers_get s (f "to")) eqn:E; [|reflexivity].
      destruct (f "to"); cbn [onlineUsers_get] in E; try discriminate E.
      cbn [tostring_throws]. rewrite orb_false_r.
      now destruct (tostring_throws (f "from")).
    + unfold on_iceCandidate, bind. destruct v; cbn [destructure nullish];
        handler_cases; reflexivity.
  - intros v Hp Hn.
    destruct ev; cbn [destructured_payload] in Hp; try discriminate Hp;
      injection Hp as ->; destruct v; try discriminate Hn;
      split; reflexivity.
Qed.

(** * The earlier server ([src/server.js]) *)

Lemma same_user_refl u : NextServer.same_user u u = true.
Proof. destruct u; cbn; apply String.eqb_refl. Qed.

Lemma users_get_set_same u p m :
  NextServer.users_get u (NextServer.users_set u p m) = Some p.
Proof.
  induction m as [|[u' p'] m IH]; cbn.
  - now rewrite same_user_refl.
  - destruct (NextServer.same_user u u') eqn:E; cbn.
    + now rewrite same_user_refl.
    + now rewrite E.
Qed.

Lemma users_get_delete_same u m :
  NextServer.users_get u (NextServer.users_delete u m) = None.
Proof.
  induction m as [|[u' p'] m IH]; cbn; [reflexivity|].
  destruct (NextServer.same_user u u') eqn:E; cbn; [assumption|].
  now rewrite E.
Qed.

Lemma users_keys_set u p m :
  In u (NextServer.users_keys (NextServer.users_set u p m)).
Proof.
  induction m as [|[u' p'] m IH]; cbn; [now left|].
  destruct (NextServer.same_user u u'); cbn; [now left|now right].
Qed.

(** X19: in [src/server.js] the roster at connection goes to the new
    socket alone.  When a channel connects with a truthy userId, it
    receives one [onlineUsersList], which holds its own userId, and every
    other connected channel receives one [userOnline] and nothing else. *)
Theorem X19_next_roster_goes_to_new_channel_only s c q u :
  NextServer.truthy_userId c q = Some u ->
  In u (NextServer.users_keys
          (NextServer.onlineUsers (NextServer.step s (NextServer.Connect c q)))) /\
  inbox (NextServer.sockets (NextServer.open_socket s c))
        (snd (NextServer.on_connection (NextServer.open_socket s c) c q)) c
  = [("onlineUsersList",
      JArr (map NextServer.js_of_user
              (NextServer.users_keys
                 (NextServer.onlineUsers
                    (NextServer.step s (NextServer.Connect c q))))))] /\
  forall c', In c' (map id (NextServer.sockets s)) -> c' <> c ->
    inbox (NextServer.sockets (NextServer.open_socket s c))
          (snd (NextServer.on_connection (NextServer.open_socket s c) c q)) c'
    = [("userOnline", NextServer.js_of_user u)].
Proof.
  intros Hq. cbn [NextServer.step]. unfold NextServer.on_connection.
  rewrite Hq. cbn [fst snd NextServer.onlineUsers NextServer.sockets
                     NextServer.open_socket].
  split; [apply users_keys_set|]. split.
  - rewrite !inbox_cons, inbox_nil. cbn [target event payload].
    replace (received (NextServer.sockets s ++ [mkSocket c [JStr c]])
                      (BroadcastFrom c) c) with false.
    + rewrite received_to_socket_self; [reflexivity|].
      rewrite map_app, in_app_iff. right. now left.
    + symmetry. apply not_true_is_false. intros E.
      apply received_broadcast in E. tauto.
  - intros c' Hc' Hne. rewrite !inbox_cons, inbox_nil.
    cbn [target event payload].
    rewrite (received_to_socket_other _ c c' Hne).
    assert (Hin : In c' (map id (NextServer.sockets s ++ [mkSocket c [JStr c]])))
      by (rewrite map_app, in_app_iff; now left).
    now rewrite (proj2 (received_broadcast _ c c') (conj Hin Hne)).
Qed.

Lemma X19_next_roster_goes_to_new_channel_only_witness :
  NextServer.truthy_userId "n" (NextServer.QString "u3")
  = Some (NextServer.UString "u3") /\
  inbox (NextServer.sockets (NextServer.open_socket NextServer.pair "n"))
        (snd (NextServer.on_connection
                (NextServer.open_socket NextServer.pair "n") "n"
                (NextServer.QString "u3"))) "a"
  = [("userOnline", JStr "u3")].
Proof.
  split; [reflexivity|].
  apply (X19_next_roster_goes_to_new_channel_only NextServer.pair "n"
           (NextServer.QString "u3") (NextServer.UString "u3") eq_refl).
  - vm_compute. tauto.
  - discriminate.
Defined.

(** X20: [src/server.js] registers any truthy userId, a string or the
    array of a repeated query parameter alike (it has no type check):
    after the connection the userId is looked up to the new channel and
    the channel is bound to it, and the channel's disconnect removes the
    entry and the binding again. *)
Theorem X20_next_registers_any_truthy_userId s c q u :
  NextServer.truthy_userId c q = Some u ->
  NextServer.lookupChannel (NextServer.step s (NextServer.Connect c q)) u
  = Some c /\
  JsMap.get c (NextServer.userSockets (NextServer.step s (NextServer.Connect c q)))
  = Some u /\
  NextServer.lookupChannel
    (NextServer.run s [NextServer.Connect c q; NextServer.Disconnect c]) u
  = None /\
  JsMap.get c (NextServer.userSockets
                 (NextServer.run s [NextServer.Connect c q;
                                    NextServer.Disconnect c]))
  = None.
Proof.
  intros Hq.
  assert (Ht : truthy (NextServer.js_of_user u) = true).
  { destruct q as [|x|items]; cbn in Hq; try discriminate.
    - destruct (String.eqb_spec x ""); [discriminate|].
      injection Hq as <-. cbn. now destruct (String.eqb_spec x "").
    - now injection Hq as <-. }
  unfold NextServer.run. cbn [fold_left NextServer.step].
  unfold NextServer.on_connection. rewrite Hq. cbn [fst].
  unfold NextServer.on_disconnect, NextServer.close_socket,
    NextServer.lookupChannel.
  cbn [NextServer.onlineUsers NextServer.userSockets NextServer.sockets].
  rewrite !JsMapFacts.get_set_same, Ht. cbn [fst NextServer.onlineUsers
                                              NextServer.userSockets].
  rewrite users_get_set_same, users_get_delete_same.
  rewrite JsMapFacts.get_delete_same. repeat split.
Qed.

Lemma X20_next_registers_any_truthy_userId_witness :
  NextServer.truthy_userId "n" (NextServer.QArray ["u1"; "u9"])
  = Some (NextServer.UArray "n" ["u1"; "u9"]) /\
  NextServer.lookupChannel
    (NextServer.step NextServer.pair
       (NextServer.Connect "n" (NextServer.QArray ["u1"; "u9"])))
    (NextServer.UArray "n" ["u1"; "u9"])
  = Some "n".
Proof.
  split; [reflexivity|].
  apply (X20_next_registers_any_truthy_userId NextServer.pair "n"
           (NextServer.QArray ["u1"; "u9"])
           (NextServer.UArray "n" ["u1"; "u9"]) eq_refl).
Defined.

Lemma filter_all_kept (A : Type) (f : A -> bool) (l : list A) :
  existsb f l = false -> filter (fun x => negb (f x)) l = l.
Proof.
  induction l as [|x l IH]; cbn; [reflexivity|].
  intros H. apply orb_false_elim in H. destruct H as [Hx Hl].
  rewrite Hx. cbn. f_equal. now apply IH.
Qed.

Lemma leave_after_join_rooms r rs :
  existsb (same_room (JStr r)) rs = false ->
  filter (fun r' => negb (same_room (JStr r) r')) (add_rooms [JStr r] rs) = rs.
Proof.
  intros H. unfold add_rooms. cbn [fold_left]. rewrite H, filter_app.
  cbn. rewrite String.eqb_refl. cbn. rewrite app_nil_r.
  now apply filter_all_kept.
Qed.

(** X21: in [src/server.js], joining a conversation and leaving it again
    is a round trip: when a channel is not in the room named by the
    string [r], [joinConversation r] followed by [leaveConversation r]
    from that channel gives back the state there was. *)
Theorem X21_next_join_then_leave_restores_state s c r :
  (forall k, In k (NextServer.sockets s) -> id k = c ->
             in_room (JStr r) k = false) ->
  NextServer.run s [NextServer.Client c (NextServer.JoinConversation (JStr r));
                    NextServer.Client c (NextServer.LeaveConversation (JStr r))]
  = s.
Proof.
  intros Hout. unfold NextServer.run.
  cbn [fold_left NextServer.step NextServer.handle NextServer.state_after
         NextServer.on_joinConversation NextServer.on_leaveConversation
         logged existsb tostring_throws orb].
  unfold NextServer.socket_leave, NextServer.socket_join.
  cbn [NextServer.onlineUsers NextServer.userSockets NextServer.sockets].
  destruct s as [on us socks]. cbn [NextServer.sockets] in *. f_equal.
  rewrite map_map. rewrite <- (map_id socks) at 2. apply map_ext_in.
  intros k HIn. destruct (id k =? c) eqn:E; cbn [id rooms]; rewrite E;
    [|reflexivity].
  apply String.eqb_eq in E. cbn [room_list].
  rewrite (leave_after_join_rooms r (rooms k) (Hout k HIn E)).
  now destruct k.
Qed.

Lemma X21_next_join_then_leave_restores_state_witness :
  NextServer.run NextServer.pair
    [NextServer.Client "a" (NextServer.JoinConversation (JStr "r2"));
     NextServer.Client "a" (NextServer.LeaveConversation (JStr "r2"))]
  = NextServer.pair.
Proof.
  apply (X21_next_join_then_leave_restores_state NextServer.pair "a" "r2").
  vm_compute. intros k [<-|[<-|[]]] H; reflexivity.
Defined.

(** X22: in [src/server.js], a channel that has left a conversation
    hears no more of it: after [leaveConversation r] from channel [c], a
    [sendMessage] for conversation [r], from anyone, is not delivered to
    [c]. *)
Theorem X22_next_leave_stops_delivery s c A r message :
  get_property message "conversationId" = Some (JStr r) ->
  inbox (NextServer.sockets
           (NextServer.step s
              (NextServer.Client c (NextServer.LeaveConversation (JStr r)))))
        (NextServer.emitted
           (NextServer.on_sendMessage
              (NextServer.step s
                 (NextServer.Client c (NextServer.LeaveConversation (JStr r))))
              A message))
        c
  = [].
Proof.
  intros Hget. unfold get_property in Hget. unfold NextServer.on_sendMessage, bind.
  destruct (destructure message) as [f| |]; [|reflexivity..].
  injection Hget as Hf. rewrite Hf.
  destruct (truthy (JStr r)); cbn [NextServer.emitted]; [|reflexivity].
  rewrite inbox_one. cbn [target].
  replace (received _ (RoomFrom A (JStr r)) c) with false; [reflexivity|].
  symmetry. apply received_false. rewrite in_recipients.
  intros (k & HIn & Hid & Hr). cbn [reaches] in Hr. rewrite addressed_one in Hr.
  apply andb_prop in Hr. destruct Hr as [Hroom _].
  cbn [NextServer.step NextServer.handle NextServer.on_leaveConversation
         logged existsb tostring_throws orb
         NextServer.state_after NextServer.socket_leave NextServer.sockets] in HIn.
  apply in_map_iff in HIn. destruct HIn as (k0 & E & _).
  assert (E0 : id k0 = c) by (subst k; now destruct (id k0 =? c)).
  rewrite E0, String.eqb_refl in E. subst k.
  unfold in_room in Hroom. cbn [rooms] in Hroom.
  apply existsb_exists in Hroom. destruct Hroom as (r' & Hr' & Hsame).
  apply filter_In in Hr'. destruct Hr' as [_ Hneg]. rewrite Hsame in Hneg.
  discriminate.
Qed.

Lemma X22_next_leave_stops_delivery_witness :
  get_property hello "conversationId" = Some (JStr "r1") /\
  inbox (NextServer.sockets
           (NextServer.step NextServer.pair
              (NextServer.Client "b" (NextServer.LeaveConversation (JStr "r1")))))
        (NextServer.emitted
           (NextServer.on_sendMessage
              (NextServer.step NextServer.pair
                 (NextServer.Client "b" (NextServer.LeaveConversation (JStr "r1"))))
              "a" hello))
        "b"
  = [].
Proof.
  split; [reflexivity|].
  apply (X22_next_leave_stops_delivery NextServer.pair "b" "a" "r1" hello).
  reflexivity.
Defined.

(** X23: the two servers relay a [sendMessage] alike, except for the
    reply to a malformed one.  For every message, what [src/server.js]
    emits is what the newer server emits with the [error] event taken
    away: the same [newMessage] to the same room when the message has a
    conversationId, and nothing where the newer server answers the
    sender with an error.  Both throw on the same messages. *)
Theorem X23_next_sendMessage_is_newer_one_without_error_reply s ns c message :
  NextServer.emitted (NextServer.on_sendMessage ns c message)
  = filter (fun e => negb (event e =? "error"))
           (emitted (on_sendMessage s c message)) /\
  ((exists err, NextServer.on_sendMessage ns c message = Threw err)
   <-> threw (on_sendMessage s c message) = true).
Proof.
  unfold NextServer.on_sendMessage, on_sendMessage, bind.
  destruct (destructure message) as [f|err|a err].
  - destruct (truthy (f "conversationId")); cbn; split; try reflexivity;
      split; try discriminate; intros [err H]; discriminate H.
  - cbn. split; [reflexivity|]. split; [reflexivity|]. intros _. now exists err.
  - cbn. split; [reflexivity|]. split; [reflexivity|]. intros _. now exists err.
Qed.

Lemma room_delivery_among (socks : list Socket) c room name body k :
  NoDup (map id socks) -> In k socks ->
  inbox socks [mkEmission (RoomFrom c room) name body] (id k)
  = if addressed (room_list room) k && negb (id k =? c)
    then [(name, body)]
    else [].
Proof.
  intros Hnd HIn. rewrite inbox_one. cbn [target event payload].
  now rewrite (received_is_reaches socks _ k Hnd HIn).
Qed.

(** X24: in [src/server.js] the typing handlers have no guard.  A
    [startTyping] or [stopTyping] whose data names a conversation [r] is
    relayed to the members of [r] other than the sender whether or not
    it has a userId; the newer server drops the same event when the
    userId is missing or falsy. *)
Theorem X24_next_typing_is_relayed_without_userId s ns c data f r :
  NoDup (map id (NextServer.sockets ns)) ->
  destructure data = Returned f -> f "conversationId" = JStr r ->
  truthy (f "userId") = false ->
  emitted (handle s c (StartTyping data)) = [] /\
  emitted (handle s c (StopTyping data)) = [] /\
  forall k, In k (NextServer.sockets ns) ->
    inbox (NextServer.sockets ns)
          (NextServer.emitted (NextServer.handle ns c (NextServer.StartTyping data)))
          (id k)
    = (if in_room (JStr r) k && negb (id k =? c)
       then [("startTyping",
              JObj [("conversationId", JStr r); ("userId", f "userId")])]
       else []) /\
    inbox (NextServer.sockets ns)
          (NextServer.emitted (NextServer.handle ns c (NextServer.StopTyping data)))
          (id k)
    = (if in_room (JStr r) k && negb (id k =? c)
       then [("stopTyping",
              JObj [("conversationId", JStr r); ("userId", f "userId")])]
       else []).
Proof.
  intros Hnd Hd Hconv Hu. cbn [handle NextServer.handle].
  unfold on_typing, NextServer.on_typing, bind. rewrite Hd, Hconv, Hu.
  rewrite orb_true_r. cbn [emitted NextServer.emitted].
  split; [reflexivity|]. split; [reflexivity|]. intros k HIn.
  rewrite !(room_delivery_among _ c (JStr r) _ _ k Hnd HIn).
  rewrite addressed_one. split; reflexivity.
Qed.

Lemma nodup_pair_ids : NoDup (map id (NextServer.sockets NextServer.pair)).
Proof.
  vm_compute. constructor.
  - intros [H|[]]. discriminate H.
  - constructor; [intros []|constructor].
Qed.

Lemma X24_next_typing_is_relayed_without_userId_witness :
  NoDup (map id (NextServer.sockets NextServer.pair)) /\
  inbox (NextServer.sockets NextServer.pair)
        (NextServer.emitted
           (NextServer.handle NextServer.pair "a"
              (NextServer.StartTyping (JObj [("conversationId", JStr "r1")]))))
        "b"
  = [("startTyping",
      JObj [("conversationId", JStr "r1"); ("userId", JUndefined)])].
Proof.
  split; [exact nodup_pair_ids|].
  pose proof (X24_next_typing_is_relayed_without_userId lobby NextServer.pair "a"
                (JObj [("conversationId", JStr "r1")])
                (fun k => match assoc k [("conversationId", JStr "r1")] with
                          | Some v => v
                          | None => JUndefined
                          end)
                "r1" nodup_pair_ids eq_refl eq_refl eq_refl) as (_ & _ & H).
  apply (H (mkSocket "b" [JStr "b"; JStr "r1"])). vm_compute. tauto.
Defined.

(** X25: in [src/server.js], the disconnect of a channel bound to a
    truthy userId removes the user's entry and the channel's binding
    and tells every remaining channel [userOffline], once, and nothing
    else: no room is notified and no roster is sent. *)
Theorem X25_next_disconnect_announces_offline_only s c u :
  JsMap.get c (NextServer.userSockets s) = Some u ->
  truthy (NextServer.js_of_user u) = true ->
  NextServer.lookupChannel (NextServer.step s (NextServer.Disconnect c)) u = None /\
  JsMap.get c (NextServer.userSockets (NextServer.step s (NextServer.Disconnect c)))
  = None /\
  forall c', In c' (map id (NextServer.sockets s)) -> c' <> c ->
    inbox (NextServer.sockets (NextServer.close_socket s c))
          (snd (NextServer.on_disconnect (NextServer.close_socket s c) c)) c'
    = [("userOffline", NextServer.js_of_user u)].
Proof.
  intros Hget Ht. cbn [NextServer.step]. unfold NextServer.on_disconnect.
  cbn [NextServer.close_socket NextServer.userSockets NextServer.onlineUsers
         NextServer.sockets].
  rewrite Hget, Ht. cbn [fst snd NextServer.userSockets NextServer.onlineUsers].
  unfold NextServer.lookupChannel. cbn [NextServer.onlineUsers].
  rewrite users_get_delete_same, JsMapFacts.get_delete_same.
  split; [reflexivity|]. split; [reflexivity|].
  intros c' Hc' Hne. rewrite inbox_one. cbn [target event payload].
  assert (Hin : In c' (map id (filter (fun k => negb (id k =? c))
                                      (NextServer.sockets s)))).
  { rewrite ids_after_close. apply filter_In. split; [assumption|].
    now destruct (String.eqb_spec c' c). }
  now rewrite (proj2 (received_broadcast _ c c') (conj Hin Hne)).
Qed.

Lemma X25_next_disconnect_announces_offline_only_witness :
  JsMap.get "a" (NextServer.userSockets NextServer.pair)
  = Some (NextServer.UString "u1") /\
  inbox (NextServer.sockets (NextServer.close_socket NextServer.pair "a"))
        (snd (NextServer.on_disconnect
                (NextServer.close_socket NextServer.pair "a") "a")) "b"
  = [("userOffline", JStr "u1")].
Proof.
  split; [reflexivity|].
  apply (X25_next_disconnect_announces_offline_only NextServer.pair "a"
           (NextServer.UString "u1") eq_refl eq_refl).
  - vm_compute. tauto.
  - discriminate.
Defined.

(** * What the other channels hear when a channel disconnects *)

Lemma inbox_app socks a b c :
  inbox socks (a ++ b) c = inbox socks a c ++ inbox socks b c.
Proof. unfold inbox. now rewrite filter_app, map_app. Qed.

Lemma notices_heard socks c (uid : JsVal) k l :
  NoDup (map id socks) -> In k socks -> id k <> c ->
  inbox socks
        (map (fun room =>
                mkEmission (RoomFrom c room) "user-left-room"
                           (JObj [("userId", uid); ("room", room)]))
             (filter (not_own_room c) l))
        (id k)
  = map (fun room => ("user-left-room", JObj [("userId", uid); ("room", room)]))
        (filter (fun room => not_own_room c room && addressed (room_list room) k)
                l).
Proof.
  intros Hnd HIn Hne. induction l as [|room l IH]; [reflexivity|].
  cbn [filter]. destruct (not_own_room c room); cbn [andb]; [|exact IH].
  cbn [map]. rewrite inbox_cons, IH. cbn [target event payload].
  rewrite (received_is_reaches socks _ k Hnd HIn). cbn [reaches].
  destruct (String.eqb_spec (id k) c) as [|_]; [contradiction|].
  rewrite andb_true_r. now destruct (addressed (room_list room) k).
Qed.

(** X26: what another channel hears when a registered channel [c] with
    userId [u] disconnects: one [user-left-room {userId: u, room}] for
    each room of [c], other than [c]'s own, that the listener is in too,
    in the order [c] joined them; then [userOffline u]; then the roster
    as it is without [u]. *)
Theorem X26_what_another_channel_hears_at_disconnect s c u k :
  reachable s -> JsMap.get c (userSockets s) = Some u ->
  In k (sockets s) -> id k <> c ->
  inbox (sockets s) (snd (on_disconnecting s c)) (id k)
  = map (fun room => ("user-left-room", JObj [("userId", JStr u); ("room", room)]))
        (filter (fun room => not_own_room c room && addressed (room_list room) k)
                (rooms_of s c))
    ++ [("userOffline", JStr u);
        ("onlineUsersList",
         JArr (map JStr (snapshotUserIds (step s (Disconnect c)))))].
Proof.
  intros Hs Hget HIn Hne.
  pose proof (reachable_consistent s Hs) as Hcons.
  destruct (bound_connected Hcons _ Hget) as [_ Hu].
  destruct (registry_after_disconnect s c u Hget Hu) as [Eon _].
  unfold snapshotUserIds. rewrite Eon. unfold on_disconnecting.
  rewrite (disconnection_registered s c u Hget Hu). cbn [snd].
  rewrite inbox_app. unfold left_room_notices, userSockets_get. rewrite Hget.
  rewrite (notices_heard (sockets s) c (JStr u) k (rooms_of s c)
             (ids_unique Hcons) HIn Hne).
  f_equal. rewrite !inbox_cons, inbox_nil. cbn [target event payload].
  assert (Hin : In (id k) (map id (sockets s))) by now apply in_map.
  rewrite (proj2 (received_broadcast _ c (id k)) (conj Hin Hne)).
  now rewrite (received_io_all _ (id k) Hin).
Qed.

Lemma X26_what_another_channel_hears_at_disconnect_witness :
  reachable lobby /\ JsMap.get "a" (userSockets lobby) = Some "u1" /\
  inbox (sockets lobby) (snd (on_disconnecting lobby "a")) "b"
  = [("user-left-room", JObj [("userId", JStr "u1"); ("room", JStr "r1")]);
     ("userOffline", JStr "u1");
     ("onlineUsersList", JArr [JStr "u2"])].
Proof.
  split; [exact reachable_lobby|]. split; [reflexivity|].
  apply (X26_what_another_channel_hears_at_disconnect lobby "a" "u1"
           (mkSocket "b" [JStr "b"; JStr "r1"]) reachable_lobby eq_refl).
  - vm_compute. tauto.
  - discriminate.
Defined.

(** * The standalone server's [sendMessage] *)

(** X27: the standalone server falls back on the nested conversation.
    A message without a conversationId of its own whose [conversation]
    object has the non-empty string [_id] [r] is relayed as [newMessage]
    to room [r], the sender left out; [src/server.js] drops the same
    message, and the newer server answers it with an error. *)
Theorem X27_standalone_sendMessage_falls_back_on_nested_id s ns c message f r :
  destructure message = Returned f ->
  truthy (f "conversationId") = false ->
  get_property (f "conversation") "_id" = Some (JStr r) -> r <> "" ->
  StandaloneServer.on_sendMessage c message
  = Returned [mkEmission (RoomFrom c (JStr r)) "newMessage" message] /\
  NextServer.emitted (NextServer.on_sendMessage ns c message) = [] /\
  map event (emitted (on_sendMessage s c message)) = ["error"].
Proof.
  intros Hd Hc Hn Hr.
  unfold StandaloneServer.on_sendMessage, NextServer.on_sendMessage,
    on_sendMessage, bind, StandaloneServer.nested_conversation_id.
  rewrite Hd, Hc. unfold get_property in Hn.
  destruct (destructure (f "conversation")) as [g| |]; [|discriminate..].
  injection Hn as ->. rewrite (truthy_nonempty r Hr). repeat split.
Qed.

Lemma X27_standalone_sendMessage_falls_back_on_nested_id_witness :
  "r1" <> "" /\
  StandaloneServer.on_sendMessage "a" StandaloneServer.nested
  = Returned [mkEmission (RoomFrom "a" (JStr "r1")) "newMessage"
                StandaloneServer.nested].
Proof.
  assert (Hr : "r1" <> "") by discriminate.
  split; [exact Hr|].
  apply (X27_standalone_sendMessage_falls_back_on_nested_id lobby NextServer.pair
           "a" StandaloneServer.nested
           (fun k => match assoc k [("content", JStr "hello");
                                    ("conversation",
                                     JObj [("_id", JStr "r1");
                                           ("title", JStr "Team")])] with
                     | Some v => v
                     | None => JUndefined
                     end)
           "r1" eq_refl eq_refl eq_refl Hr).
Defined.
